(** * banking-shared-ts: the Kafka messaging core

    A shallow embedding of the event envelope ([createBaseEvent]), the
    publisher ([BaseProducer]) and the subscriber ([BaseConsumer]) of the
    shared TypeScript library, together with the properties the design
    document states about them.

    Asynchronous methods are embedded as computations in a state-and-exception
    monad: a method runs to its completion (a normal return or a thrown
    error) on a state made of the object's fields ([this]) and of the
    outside world (clock, identifier generator, Kafka client).  [await] is
    sequencing; interleavings of concurrent calls are not modelled. *)

From Stdlib Require Import ZArith NArith String Ascii List Lia Bool.
From stdpp Require Import base option strings gmap list pretty.

Set Warnings "-register-all".

Local Open Scope string_scope.
Local Open Scope Z_scope.

(** ** JavaScript values, errors and completions *)

Module JS.

(** A thrown JavaScript value: [new Error(message)] or a native [TypeError]. *)
Inductive JsError :=
| Error (message : string)
| TypeError (message : string).

Definition message_of (e : JsError) : string :=
  match e with Error m => m | TypeError m => m end.

(** How a call completes. *)
Inductive Completion (A : Type) :=
| Normal (a : A)
| Throw (e : JsError).
Arguments Normal {A} a.
Arguments Throw {A} e.

(** A number of a configuration: an integer or [NaN]. *)
Inductive JsNumber :=
| Num (n : Z)
| NaN.

(** Data, as [JSON.stringify] sees it.  [JNum n] is the number written [n]
    (the double nearest to the integer [n]); the fields of [JObj] are the
    properties in the order they were assigned; [JBigInt] is a BigInt and
    [JCircular] an object or array that contains itself. *)
Inductive JsValue :=
| JUndefined
| JNull
| JBool (b : bool)
| JNum (n : Z)
| JStr (s : string)
| JArr (items : list JsValue)
| JObj (fields : list (string * JsValue))
| JBigInt (n : Z)
| JCircular.

(** *** The state-and-exception monad *)

Definition M (S A : Type) : Type := S -> Completion A * S.

Definition ret {S A} (a : A) : M S A := fun s => (Normal a, s).

Definition bind {S A B} (m : M S A) (k : A -> M S B) : M S B :=
  fun s =>
    match m s with
    | (Normal a, s') => k a s'
    | (Throw e, s') => (Throw e, s')
    end.

Definition throw {S A} (e : JsError) : M S A := fun s => (Throw e, s).

(** [try { body } catch (error) { handler error }] *)
Definition try_catch {S A} (body : M S A) (handler : JsError -> M S A) : M S A :=
  fun s =>
    match body s with
    | (Normal a, s') => (Normal a, s')
    | (Throw e, s') => handler e s'
    end.

Definition get {S} : M S S := fun s => (Normal s, s).
Definition modify {S} (f : S -> S) : M S unit := fun s => (Normal tt, f s).

(** *** Text helpers *)

Definition hexdigit (n : Z) : ascii :=
  match n with
  | 0 => "0" | 1 => "1" | 2 => "2" | 3 => "3" | 4 => "4" | 5 => "5"
  | 6 => "6" | 7 => "7" | 8 => "8" | 9 => "9" | 10 => "a" | 11 => "b"
  | 12 => "c" | 13 => "d" | 14 => "e" | _ => "f"
  end%char.

(** Two lowercase hexadecimal digits of a byte. *)
Definition hex2 (b : Z) : string :=
  String (hexdigit ((b / 16) mod 16)) (String (hexdigit (b mod 16)) EmptyString).

(** The numbers below [n], for exhaustive checks on bytes. *)
Definition upto (n : nat) : list Z := List.map Z.of_nat (seq 0 n).

Fixpoint zeros (n : nat) : string :=
  match n with O => EmptyString | S n' => String "0" (zeros n') end.

(** Decimal rendering of a non-negative number, zero-padded to [width]. *)
Definition pad (width : nat) (n : Z) : string :=
  let d := pretty (Z.to_N n) in
  zeros (width - String.length d) +:+ d.

(** *** [Date.prototype.toISOString] on milliseconds since the epoch *)

(** Year, month and day of a day count since 1970-01-01 (proleptic Gregorian
    calendar). *)
Definition civil_from_days (days : Z) : Z * Z * Z :=
  let z := days + 719468 in
  let era := z / 146097 in
  let doe := z - era * 146097 in
  let yoe := (doe - doe / 1460 + doe / 36524 - doe / 146096) / 365 in
  let doy := doe - (365 * yoe + yoe / 4 - yoe / 100) in
  let mp := (5 * doy + 2) / 153 in
  let d := doy - (153 * mp + 2) / 5 + 1 in
  let m := if mp <? 10 then mp + 3 else mp - 9 in
  let y := yoe + era * 400 + (if m <=? 2 then 1 else 0) in
  (y, m, d).

(** The day count of a civil date: [civil_from_days] read backwards. *)
Definition days_from_civil (y m d : Z) : Z :=
  let y' := if m <=? 2 then y - 1 else y in
  let era := y' / 400 in
  let yoe := y' - era * 400 in
  let mp := if m <=? 2 then m + 9 else m - 3 in
  let doy := (153 * mp + 2) / 5 + d - 1 in
  let doe := yoe * 365 + yoe / 4 - yoe / 100 + doy in
  era * 146097 + doe - 719468.

Definition iso_year (y : Z) : string :=
  if (0 <=? y) && (y <=? 9999) then pad 4 y
  else (if y <? 0 then "-" else "+") +:+ pad 6 (Z.abs y).

Definition toISOString (ms : Z) : string :=
  let days := ms / 86400000 in
  let rest := ms mod 86400000 in
  let '(y, m, d) := civil_from_days days in
  iso_year y +:+ "-" +:+ pad 2 m +:+ "-" +:+ pad 2 d +:+ "T"
    +:+ pad 2 (rest / 3600000) +:+ ":" +:+ pad 2 ((rest / 60000) mod 60)
    +:+ ":" +:+ pad 2 ((rest / 1000) mod 60) +:+ "." +:+ pad 3 (rest mod 1000)
    +:+ "Z".

(** *** The clock and the identifier generator

    [now] is the wall clock in milliseconds since the epoch; each reading of
    the clock lets the next entry of [lapse] pass first.  [rng] is the stream
    of 128-bit draws of the random source behind [uuidv4], [draws] the number
    of draws taken so far. *)
Record Sys := {
  now : Z;
  lapse : list Z;
  rng : nat -> N;
  draws : nat
}.

Definition tick (y : Sys) : Sys :=
  match lapse y with
  | [] => y
  | d :: rest => {| now := now y + d; lapse := rest; rng := rng y; draws := draws y |}
  end.

(** [Date.now()], and the instant held by [new Date()]. *)
Definition Date_now : M Sys Z := fun y => (Normal (now (tick y)), tick y).

(** The sixteen bytes of a 128-bit draw, most significant first. *)
Definition byte_of (r : N) (i : Z) : Z := (Z.of_N r / 2 ^ (8 * (15 - i))) mod 256.

(** Version 4 forces the version into byte 6 and the variant into byte 8. *)
Definition v4_bytes (r : N) : list Z :=
  [byte_of r 0; byte_of r 1; byte_of r 2; byte_of r 3; byte_of r 4; byte_of r 5;
   Z.lor (Z.land (byte_of r 6) 15) 64; byte_of r 7;
   Z.lor (Z.land (byte_of r 8) 63) 128; byte_of r 9;
   byte_of r 10; byte_of r 11; byte_of r 12; byte_of r 13; byte_of r 14;
   byte_of r 15].

(** Sixteen bytes printed as 8-4-4-4-12 hexadecimal digits. *)
Definition unsafeStringify (arr : list Z) : string :=
  let b i := hex2 (nth i arr 0) in
  b 0%nat +:+ b 1%nat +:+ b 2%nat +:+ b 3%nat +:+ "-"
    +:+ b 4%nat +:+ b 5%nat +:+ "-" +:+ b 6%nat +:+ b 7%nat +:+ "-"
    +:+ b 8%nat +:+ b 9%nat +:+ "-" +:+ b 10%nat +:+ b 11%nat
    +:+ b 12%nat +:+ b 13%nat +:+ b 14%nat +:+ b 15%nat.

Definition uuid_of (r : N) : string := unsafeStringify (v4_bytes r).

Definition uuidv4 : M Sys string :=
  fun y =>
    (Normal (uuid_of (rng y (draws y))),
     {| now := now y; lapse := lapse y; rng := rng y; draws := S (draws y) |}).

(** *** [JSON.stringify] *)

Definition escape_char (c : ascii) : string :=
  let n := Z.of_N (N_of_ascii c) in
  if n =? 34 then String "\" (String c EmptyString)
  else if n =? 92 then "\\"
  else if n =? 8 then "\b"
  else if n =? 9 then "\t"
  else if n =? 10 then "\n"
  else if n =? 12 then "\f"
  else if n =? 13 then "\r"
  else if n <? 32 then "\u00" +:+ hex2 n
  else String c EmptyString.

Fixpoint escape (s : string) : string :=
  match s with
  | EmptyString => EmptyString
  | String c rest => escape_char c +:+ escape rest
  end.

Definition quote (s : string) : string :=
  String (ascii_of_N 34) (escape s) +:+ String (ascii_of_N 34) EmptyString.

Fixpoint join (sep : string) (parts : list string) : string :=
  match parts with
  | [] => EmptyString
  | [p] => p
  | p :: rest => p +:+ sep +:+ join sep rest
  end.

(** *** [Number.prototype.toString] on integers

    A number at or above [2^53] is first rounded to the nearest double (ties
    to even); its text is the shortest decimal that reads back as that
    double, the closest one if there are several, written in full below
    [10^21] and with an exponent from there on. *)

(** The double nearest to [a >= 2^53]: its value, twice the half-gap to the
    double below, twice the half-gap to the double above, and whether the
    ends of the rounding interval belong to it.  [None] is Infinity. *)
Definition double_of (a : Z) : option (Z * Z * Z * bool) :=
  let s := Z.log2 a - 52 in
  let q := Z.shiftr a s in
  let r := a - Z.shiftl q s in
  let half := 2 ^ (s - 1) in
  let q := if (half <? r) || ((r =? half) && Z.odd q) then q + 1 else q in
  let s := if q =? 2 ^ 53 then s + 1 else s in
  let q := if q =? 2 ^ 53 then 2 ^ 52 else q in
  if 971 <? s then None
  else Some (q * 2 ^ s, (if q =? 2 ^ 52 then 2 ^ (s - 1) else 2 ^ s), 2 ^ s, Z.even q).

Definition reads_back (d below above : Z) (closed : bool) (v : Z) : bool :=
  if closed then (2 * d - below <=? 2 * v) && (2 * v <=? 2 * d + above)
  else (2 * d - below <? 2 * v) && (2 * v <? 2 * d + above).

(** The shortest decimal for [d]: the multiples of [10^p] next to [d], for
    [p] as large as possible. *)
Fixpoint shortest (d below above : Z) (closed : bool) (p : nat) : Z :=
  let m := 10 ^ Z.of_nat p in
  let lo := d / m * m in
  let hi := lo + m in
  let ok_lo := (0 <? lo) && reads_back d below above closed lo in
  let ok_hi := reads_back d below above closed hi in
  match ok_lo, ok_hi with
  | true, true =>
      if d - lo <? hi - d then lo
      else if hi - d <? d - lo then hi
      else if Z.even (lo / m) then lo else hi
  | true, false => lo
  | false, true => hi
  | false, false =>
      match p with
      | O => d
      | S p' => shortest d below above closed p'
      end
  end.

Fixpoint strip_zeros (fuel : nat) (v : Z) : Z :=
  match fuel with
  | O => v
  | S fuel' => if (v mod 10 =? 0) && negb (v =? 0) then strip_zeros fuel' (v / 10) else v
  end.

(** [d.ddde+n] *)
Definition exponential (v : Z) : string :=
  let n := String.length (pretty (Z.to_N v)) in
  let exponent := "e+" +:+ pretty (N.of_nat (n - 1)) in
  match pretty (Z.to_N (strip_zeros n v)) with
  | EmptyString => EmptyString
  | String c EmptyString => String c exponent
  | String c rest => String c ("." +:+ rest +:+ exponent)
  end.

Definition Number_toString (n : Z) : string :=
  let a := Z.abs n in
  let sign := if n <? 0 then "-" else EmptyString in
  if a <? 2 ^ 53 then sign +:+ pretty (Z.to_N a)
  else
    match double_of a with
    | None => sign +:+ "Infinity"
    | Some (d, below, above, closed) =>
        let v := shortest d below above closed (String.length (pretty (Z.to_N d))) in
        sign +:+ (if v <? 10 ^ 21 then pretty (Z.to_N v) else exponential v)
    end.

Definition is_finite (n : Z) : bool :=
  match double_of (Z.abs n) with
  | None => Z.abs n <? 2 ^ 53
  | Some _ => true
  end.

(** *** The own properties of an object, in the order of enumeration

    A property assigned twice keeps its first place and its last value; the
    keys that are array indices come first, in ascending order, the other
    keys follow in the order they were assigned. *)

Fixpoint upsert {A} (k : string) (v : A) (l : list (string * A)) : list (string * A) :=
  match l with
  | [] => [(k, v)]
  | (k', v') :: rest =>
      if String.eqb k k' then (k, v) :: rest else (k', v') :: upsert k v rest
  end.

Definition assigned {A} (fields : list (string * A)) : list (string * A) :=
  fold_left (fun acc kv => upsert (fst kv) (snd kv) acc) fields [].

Fixpoint parse_digits (s : string) (acc : N) : option N :=
  match s with
  | EmptyString => Some acc
  | String c rest =>
      let n := N_of_ascii c in
      if ((48 <=? n) && (n <=? 57))%N then parse_digits rest (10 * acc + (n - 48))%N
      else None
  end.

(** The canonical text of an integer from [0] to [2^32 - 2]. *)
Definition array_index (k : string) : option N :=
  match k with
  | EmptyString => None
  | String c rest =>
      if (N_of_ascii c =? 48)%N && negb (String.eqb rest EmptyString) then None
      else
        match parse_digits k 0 with
        | Some n => if (n <=? 4294967294)%N then Some n else None
        | None => None
        end
  end.

Fixpoint insert_index {A} (n : N) (kv : string * A) (l : list (N * (string * A)))
  : list (N * (string * A)) :=
  match l with
  | [] => [(n, kv)]
  | (n', kv') :: rest =>
      if (n <? n')%N then (n, kv) :: l else (n', kv') :: insert_index n kv rest
  end.

Definition own_properties {A} (fields : list (string * A)) : list (string * A) :=
  let props := assigned fields in
  let indices :=
    fold_right (fun kv acc =>
                  match array_index (fst kv) with
                  | Some n => insert_index n kv acc
                  | None => acc
                  end) [] props in
  List.map snd indices
    ++ List.filter (fun kv => negb (bool_decide (is_Some (array_index (fst kv))))) props.

(** *** [JSON.stringify]

    A property whose value is [undefined] is left out of an object; an
    [undefined] array element is written [null], and so is a number that is
    not finite.  A BigInt and a circular structure make it throw a
    [TypeError], the first one met in the order of the traversal. *)

Fixpoint members (props : list (string * Completion (option string)))
  : Completion (list string) :=
  match props with
  | [] => Normal []
  | (_, Throw e) :: _ => Throw e
  | (_, Normal None) :: rest => members rest
  | (k, Normal (Some text)) :: rest =>
      match members rest with
      | Normal l => Normal ((quote k +:+ ":" +:+ text) :: l)
      | Throw e => Throw e
      end
  end.

Fixpoint elements (items : list (Completion (option string))) : Completion (list string) :=
  match items with
  | [] => Normal []
  | Throw e :: _ => Throw e
  | Normal text :: rest =>
      match elements rest with
      | Normal l => Normal (default "null" text :: l)
      | Throw e => Throw e
      end
  end.

Fixpoint serialize (v : JsValue) : Completion (option string) :=
  match v with
  | JUndefined => Normal None
  | JNull => Normal (Some "null")
  | JBool true => Normal (Some "true")
  | JBool false => Normal (Some "false")
  | JNum n => Normal (Some (if is_finite n then Number_toString n else "null"))
  | JStr s => Normal (Some (quote s))
  | JBigInt _ => Throw (TypeError "Do not know how to serialize a BigInt")
  | JCircular => Throw (TypeError "Converting circular structure to JSON")
  | JArr items =>
      match elements (List.map serialize items) with
      | Normal l => Normal (Some ("[" +:+ join "," l +:+ "]"))
      | Throw e => Throw e
      end
  | JObj fields =>
      let rendered :=
        List.map (fun kv : string * JsValue =>
                    match kv with (k, v') => (k, serialize v') end) fields in
      match members (own_properties rendered) with
      | Normal l => Normal (Some ("{" +:+ join "," l +:+ "}"))
      | Throw e => Throw e
      end
  end.

(** [JSON.stringify(v)]: a text, [undefined], or a thrown error. *)
Definition JSON_stringify (v : JsValue) : Completion (option string) := serialize v.

(** A completion, as a computation. *)
Definition completes {S A} (c : Completion A) : M S A := fun s => (c, s).

Declare Scope js_scope.
Delimit Scope js_scope with js.
Notation "'let*' x ':=' m 'in' k" := (bind m (fun x => k))
  (at level 10, x name, m at level 100, k at level 200) : js_scope.
Notation "m '>>' k" := (bind m (fun _ => k))
  (at level 100, k at level 200, right associativity) : js_scope.

End JS.

Import JS.
Local Open Scope js_scope.

(** ** Event types and the event envelope (events/index.ts) *)

Module TransactionEvents.
Definition INITIATED := "TransactionInitiated".
Definition ANALYZING := "TransactionAnalyzing".
Definition APPROVED := "TransactionApproved".
Definition REJECTED := "TransactionRejected".
Definition COMPLETED := "TransactionCompleted".
Definition FAILED := "TransactionFailed".
Definition CANCELLED := "TransactionCancelled".
Definition WAITING_REVIEW := "TransactionWaitingReview".
Definition values : list string :=
    [INITIATED; ANALYZING; APPROVED; REJECTED; COMPLETED; FAILED; CANCELLED;
     WAITING_REVIEW].
End TransactionEvents.

Module FraudEvents.
Definition ANALYSIS_COMPLETE := "FraudAnalysisComplete".
Definition SUSPECTED := "FraudSuspected".
Definition REVIEW_COMPLETE := "FraudReviewComplete".
Definition MANUAL_REVIEW_REQUIRED := "ManualReviewRequired".
Definition BLOCKLIST_MATCH := "BlocklistMatch".
Definition values : list string :=
    [ANALYSIS_COMPLETE; SUSPECTED; REVIEW_COMPLETE; MANUAL_REVIEW_REQUIRED;
     BLOCKLIST_MATCH].
End FraudEvents.

Module UserEvents.
Definition CREATED := "UserCreated".
Definition UPDATED := "UserUpdated".
Definition LOCKED := "UserLocked".
Definition PASSWORD_CHANGED := "UserPasswordChanged".
Definition values : list string := [CREATED; UPDATED; LOCKED; PASSWORD_CHANGED].
End UserEvents.

Module SecurityEvents.
Definition LOGIN_SUCCESS := "user.login.success".
Definition LOGIN_FAILED := "user.login.failed".
Definition MFA_ENABLED := "user.mfa.enabled".
Definition MFA_DISABLED := "user.mfa.disabled".
Definition TOKEN_REVOKED := "security.all_tokens_revoked".
Definition JWT_KEY_ROTATED := "jwt.key.rotated".
Definition SECURITY_ALERT := "security.anomaly_detected".
Definition USER_REGISTERED := "user.registered".
Definition EMAIL_VERIFIED := "user.email.verified".
Definition PASSWORD_RESET_REQUESTED := "user.password.reset_requested".
Definition PASSWORD_RESET := "user.password.reset".
Definition DEVICE_REGISTERED := "user.device.registered".
Definition DEVICE_REVOKED := "user.device.revoked".
Definition SESSION_CREATED := "session.created".
Definition SESSION_TERMINATED := "session.terminated".
Definition values : list string :=
    [LOGIN_SUCCESS; LOGIN_FAILED; MFA_ENABLED; MFA_DISABLED; TOKEN_REVOKED;
     JWT_KEY_ROTATED; SECURITY_ALERT; USER_REGISTERED; EMAIL_VERIFIED;
     PASSWORD_RESET_REQUESTED; PASSWORD_RESET; DEVICE_REGISTERED;
     DEVICE_REVOKED; SESSION_CREATED; SESSION_TERMINATED].
End SecurityEvents.

Module NotificationEvents.
Definition SENT := "NotificationSent".
Definition FAILED := "NotificationFailed".
Definition REQUESTED := "NotificationRequested".
Definition values : list string := [SENT; FAILED; REQUESTED].
End NotificationEvents.

Module AMLEvents.
Definition SCREENING_COMPLETE := "AMLScreeningComplete".
Definition SAR_FILED := "SARFiled".
Definition RISK_PROFILE_UPDATED := "RiskProfileUpdated".
Definition values : list string :=
    [SCREENING_COMPLETE; SAR_FILED; RISK_PROFILE_UPDATED].
End AMLEvents.

Module Events.

(** The union type [EventType]: a compile-time type only.  At run time an
    event type is a string; [EventType] lists the strings the type admits. *)
Definition EventType : list string :=
  TransactionEvents.values ++ FraudEvents.values ++ UserEvents.values
    ++ SecurityEvents.values ++ NotificationEvents.values ++ AMLEvents.values.

Definition is_EventType (s : string) : bool :=
  bool_decide (s ∈ EventType).

Record BaseEvent := {
  eventId : string;
  eventType : string;
  timestamp : string;
  version : string;
  correlationId : option string;
  causationId : option string;
  source : string
}.

(** [{ ...event, correlationId: c }] *)
Definition with_correlationId (event : BaseEvent) (c : option string) : BaseEvent :=
  {| eventId := eventId event; eventType := eventType event;
     timestamp := timestamp event; version := version event;
     correlationId := c; causationId := causationId event;
     source := source event |}.

Definition createBaseEvent (eventType : string) (source : string) : M Sys BaseEvent :=
  let* id := uuidv4 in
  let* date := Date_now in
  ret {| eventId := id;
         eventType := eventType;
         timestamp := toISOString date;
         version := "1.0";
         correlationId := None;
         causationId := None;
         source := source |}.

Definition json_of_option (o : option string) : JsValue :=
  match o with Some s => JStr s | None => JUndefined end.

(** The object [{ ...event, payload }], properties in insertion order. *)
Definition message_object (event : BaseEvent) (payload : JsValue) : JsValue :=
  JObj [("eventId", JStr (eventId event));
        ("eventType", JStr (eventType event));
        ("timestamp", JStr (timestamp event));
        ("version", JStr (version event));
        ("source", JStr (source event));
        ("correlationId", json_of_option (correlationId event));
        ("causationId", json_of_option (causationId event));
        ("payload", payload)].

(** The wire format of the design document (section 6), written out: a
    JSON object with the members [eventId], [eventType], [timestamp],
    [version] and [source], then [correlationId] when there is one, then
    [payload] with the JSON text of the payload when it has one. *)
Definition wire_format (eventId eventType timestamp version source : string)
    (correlationId : option string) (payload : option string) : string :=
  "{" +:+ join ","
    ([quote "eventId" +:+ ":" +:+ quote eventId;
      quote "eventType" +:+ ":" +:+ quote eventType;
      quote "timestamp" +:+ ":" +:+ quote timestamp;
      quote "version" +:+ ":" +:+ quote version;
      quote "source" +:+ ":" +:+ quote source]
     ++ match correlationId with
        | Some c => [quote "correlationId" +:+ ":" +:+ quote c]
        | None => []
        end
     ++ match payload with
        | Some text => [quote "payload" +:+ ":" +:+ text]
        | None => []
        end) +:+ "}".

End Events.

(** ** The Kafka client (kafkajs), as far as the library drives it

    The client is the external transport.  It is embedded as a recorder: every
    primitive the library invokes is appended to [calls], and [answer] (the
    broker's side, arbitrary) decides from the history whether a primitive
    that does I/O succeeds, and with which delivery metadata.  [paused] holds
    the topics whose delivery is paused, [committed] the positions the
    consumer group has committed. *)

Module Kafka.

Inductive Partitioner := DefaultPartitioner | LegacyPartitioner.
Inductive CompressionTypes := CompressionNone | GZIP.

Record RetryOptions := {
  initialRetryTime : JsNumber;
  retries : JsNumber
}.

Record KafkaConfig := {
  clientId : string;
  brokers : list string;
  retry : RetryOptions
}.

Record ProducerOptions := {
  createPartitioner : Partitioner;
  allowAutoTopicCreation : bool;
  transactionTimeout : Z;
  idempotent : bool
}.

Record ConsumerOptions := {
  groupId : string;
  sessionTimeout : Z;
  heartbeatInterval : Z
}.

(** An outgoing message. *)
Record Message := {
  key : string;
  value : option string;
  headers : gmap string string
}.

Record ProducerRecord := {
  topic : string;
  compression : CompressionTypes;
  messages : list Message
}.

Record RecordMetadata := {
  topicName : string;
  partition : Z;
  errorCode : Z;
  offset : string
}.

(** An incoming message, as handed to [eachMessage]. *)
Record KafkaMessage := {
  in_key : option string;
  in_value : option string;
  in_offset : string;
  in_headers : gmap string string
}.

Record EachMessagePayload := {
  in_topic : string;
  in_partition : Z;
  message : KafkaMessage
}.

(** The argument of [pause] and [resume]: [{ topic }]. *)
Record TopicPartitions := {
  tp_topic : string
}.

(** The primitives of the client. *)
Inductive Call :=
| NewProducer (options : ProducerOptions)     (* kafka.producer(options) *)
| NewConsumer (options : ConsumerOptions)     (* kafka.consumer(options) *)
| ProducerConnect
| ProducerDisconnect
| Send (record : ProducerRecord)
| ConsumerConnect
| ConsumerDisconnect
| Subscribe (topics : list string) (fromBeginning : bool)
| Run
| Stop
| Pause (topicPartitions : list TopicPartitions)
| Resume (topicPartitions : list TopicPartitions)
| Commit (topic : string) (partition : Z) (offset : string).

Inductive Reply :=
| Ack (metadata : list RecordMetadata)
| Nack (e : JsError).

Record Client := {
  calls : list Call;
  answer : list Call -> Call -> Reply;
  paused : list string;
  committed : list (string * Z * string)
}.

Definition record_call (c : Call) (k : Client) : Client :=
  {| calls := calls k ++ [c]; answer := answer k; paused := paused k;
     committed := committed k |}.

(** A primitive that talks to the broker: it is recorded, then resolves or
    rejects as the broker answers. *)
Definition request (c : Call) : M Client (list RecordMetadata) :=
  fun k =>
    match answer k (calls k) c with
    | Ack metadata => (Normal metadata, record_call c k)
    | Nack e => (Throw e, record_call c k)
    end.

(** A primitive of the client that does no I/O. *)
Definition local (c : Call) : M Client unit :=
  fun k => (Normal tt, record_call c k).

Definition producer_connect : M Client unit := request ProducerConnect >> ret tt.
Definition producer_disconnect : M Client unit := request ProducerDisconnect >> ret tt.
Definition producer_send (r : ProducerRecord) : M Client (list RecordMetadata) :=
  request (Send r).

Definition consumer_connect : M Client unit := request ConsumerConnect >> ret tt.
Definition consumer_disconnect : M Client unit := request ConsumerDisconnect >> ret tt.
Definition consumer_subscribe (topics : list string) (fromBeginning : bool) : M Client unit :=
  request (Subscribe topics fromBeginning) >> ret tt.
Definition consumer_run : M Client unit := request Run >> ret tt.
Definition consumer_stop : M Client unit := request Stop >> ret tt.

Definition set_paused (p : list string) (k : Client) : Client :=
  {| calls := calls k; answer := answer k; paused := p; committed := committed k |}.

(** [consumer.pause(topicPartitions)] stops the delivery of the topics
    named, and [consumer.resume(topicPartitions)] restarts it; neither touches
    the subscription nor the committed positions. *)
Definition consumer_pause (tps : list TopicPartitions) : M Client unit :=
  local (Pause tps) >>
  modify (fun k => set_paused (List.map tp_topic tps ++ paused k) k).

Definition consumer_resume (tps : list TopicPartitions) : M Client unit :=
  local (Resume tps) >>
  modify (fun k =>
    set_paused
      (List.filter (fun t => bool_decide (t ∉ List.map tp_topic tps)) (paused k)) k).

Definition is_paused (k : Client) (t : string) : bool := bool_decide (t ∈ paused k).

(** What the recorder saw: the records handed to [send], in order, and
    whether a call is a [subscribe]. *)
Definition sent (k : Client) : list ProducerRecord :=
  flat_map (fun c => match c with Send r => [r] | _ => [] end) (calls k).

Definition is_subscribe (c : Call) : bool :=
  match c with Subscribe _ _ => true | _ => false end.

Definition commit (topic : string) (partition : Z) (offset : string) : M Client unit :=
  local (Commit topic partition offset) >>
  modify (fun k => {| calls := calls k; answer := answer k; paused := paused k;
                      committed := committed k ++ [(topic, partition, offset)] |}).

End Kafka.

(** ** The state a method runs on: the object and the world around it *)

Record World := {
  sys : Sys;
  kafka_client : Kafka.Client
}.

Record St (O : Type) := {
  this : O;
  world : World
}.
Arguments this {O} _.
Arguments world {O} _.

Definition on_sys {O A} (m : M Sys A) : M (St O) A :=
  fun st =>
    let '(r, y) := m (sys (world st)) in
    (r, {| this := this st;
           world := {| sys := y; kafka_client := kafka_client (world st) |} |}).

Definition on_client {O A} (m : M Kafka.Client A) : M (St O) A :=
  fun st =>
    let '(r, k) := m (kafka_client (world st)) in
    (r, {| this := this st;
           world := {| sys := sys (world st); kafka_client := k |} |}).

Definition on_world {O A} (m : M World A) : M (St O) A :=
  fun st => let '(r, w) := m (world st) in (r, {| this := this st; world := w |}).

Definition read {O A} (f : O -> A) : M (St O) A :=
  fun st => (Normal (f (this st)), st).

Definition update {O} (f : O -> O) : M (St O) unit :=
  fun st => (Normal tt, {| this := f (this st); world := world st |}).

(** ** The logger (winston), as a list of the records written *)

Inductive Level := LDebug | LInfo | LWarn | LError.

Record LogRecord := {
  level : Level;
  text : string;
  meta : list (string * JsValue)
}.

Definition json_of_error (e : JsError) : JsValue := JStr (message_of e).

(** [array.map(f)] for an [f] with effects: elements in order. *)
Fixpoint mapM {S A B} (f : A -> M S B) (l : list A) : M S (list B) :=
  match l with
  | [] => ret []
  | a :: rest =>
      let* b := f a in
      let* bs := mapM f rest in
      ret (b :: bs)
  end.

(** ** The publisher (kafka/producer.ts) *)

Module Producer.

Import Events Kafka.

Record ProducerConfig := {
  cfg_clientId : string;
  cfg_brokers : list string;
  cfg_serviceName : string;
  cfg_retries : option JsNumber;
  cfg_initialRetryTime : option JsNumber
}.

Record PublishOptions := {
  opt_correlationId : option string;
  opt_headers : option (gmap string string)
}.

Record BaseProducer := {
  kafka : KafkaConfig;
  producer : option ProducerOptions;
  isConnected : bool;
  serviceName : string;
  eventVersion : string;
  logger : list LogRecord
}.

Definition set_producer (p : option ProducerOptions) (o : BaseProducer) : BaseProducer :=
  {| kafka := kafka o; producer := p; isConnected := isConnected o;
     serviceName := serviceName o; eventVersion := eventVersion o;
     logger := logger o |}.

Definition set_isConnected (b : bool) (o : BaseProducer) : BaseProducer :=
  {| kafka := kafka o; producer := producer o; isConnected := b;
     serviceName := serviceName o; eventVersion := eventVersion o;
     logger := logger o |}.

Definition log (l : Level) (text : string) (meta : list (string * JsValue))
  : M (St BaseProducer) unit :=
  update (fun o =>
    {| kafka := kafka o; producer := producer o; isConnected := isConnected o;
       serviceName := serviceName o; eventVersion := eventVersion o;
       logger := logger o ++ [{| level := l; text := text; meta := meta |}] |}).

(** [x || d] on an optional number: [undefined], [0] and [NaN] give [d]. *)
Definition or_default (x : option JsNumber) (d : Z) : JsNumber :=
  match x with
  | Some (Num n) => if n =? 0 then Num d else Num n
  | Some NaN => Num d
  | None => Num d
  end.

(** [new BaseProducer(config, logger)] *)
Definition new_BaseProducer (config : ProducerConfig) (logger : option (list LogRecord))
  : BaseProducer :=
  {| kafka := {| clientId := cfg_clientId config;
                 brokers := cfg_brokers config;
                 retry := {| initialRetryTime := or_default (cfg_initialRetryTime config) 100;
                             retries := or_default (cfg_retries config) 5 |} |};
     producer := None;
     isConnected := false;
     serviceName := cfg_serviceName config;
     eventVersion := "1.0";
     logger := default [] logger |}.

Definition connect : M (St BaseProducer) unit :=
  let* connected := read isConnected in
  if connected then ret tt
  else
    try_catch
      (let options := {| createPartitioner := DefaultPartitioner;
                         allowAutoTopicCreation := true;
                         transactionTimeout := 30000;
                         idempotent := true |} in
       on_client (local (NewProducer options)) >>
       update (set_producer (Some options)) >>
       on_client producer_connect >>
       update (set_isConnected true) >>
       log LInfo "Kafka producer connected" [])
      (fun error =>
         log LError "Failed to connect Kafka producer" [("error", json_of_error error)] >>
         throw error).

Definition disconnect : M (St BaseProducer) unit :=
  let* p := read producer in
  let* connected := read isConnected in
  if bool_decide (is_Some p) && connected then
    on_client producer_disconnect >>
    update (set_isConnected false) >>
    log LInfo "Kafka producer disconnected" []
  else ret tt.

(** [options?.correlationId] and [options?.headers] *)
Definition correlationId_of (options : option PublishOptions) : option string :=
  match options with Some o => opt_correlationId o | None => None end.

Definition headers_of (options : option PublishOptions) : gmap string string :=
  match options with
  | Some o => default ∅ (opt_headers o)
  | None => ∅
  end.

(** [c || ''] on an optional string. *)
Definition or_empty (c : option string) : string := default EmptyString c.

(** The headers of [publish]: the four fixed entries, then the spread of the
    caller's headers, whose entries replace fixed ones of the same name. *)
Definition publish_headers (eventType eventVersion serviceName : string)
    (options : option PublishOptions) : gmap string string :=
  headers_of options ∪
    <["correlation-id" := or_empty (correlationId_of options)]>
      (<["source-service" := serviceName]>
        (<["event-version" := eventVersion]>
          (<["event-type" := eventType]> ∅))).

Definition publish (topic eventType : string) (payload : JsValue) (key : string)
    (options : option PublishOptions)
  : M (St BaseProducer) (option (list RecordMetadata)) :=
  let* p := read producer in
  let* connected := read isConnected in
  if negb (bool_decide (is_Some p)) || negb connected then
    log LWarn "Kafka producer not connected, event logged locally"
      [("topic", JStr topic); ("eventType", JStr eventType); ("payload", payload)] >>
    ret None
  else
    let* service := read serviceName in
    let* base := on_sys (createBaseEvent eventType service) in
    let event := with_correlationId base (correlationId_of options) in
    let message := message_object event payload in
    try_catch
      (let* version := read eventVersion in
       let* text := completes (JSON_stringify message) in
       let* result :=
         on_client (producer_send
           {| topic := topic;
              compression := GZIP;
              messages :=
                [{| key := key;
                    value := text;
                    headers := publish_headers eventType version service options |}] |}) in
       log LDebug "Message published"
         [("topic", JStr topic); ("eventType", JStr eventType); ("key", JStr key)] >>
       ret (Some result))
      (fun error =>
         log LError "Failed to publish message"
           [("topic", JStr topic); ("eventType", JStr eventType);
            ("error", json_of_error error)] >>
         throw error).

(** One entry of the [messages] argument of [publishBatch]. *)
Record BatchEntry := {
  msg_eventType : string;
  msg_payload : JsValue;
  msg_key : string
}.

Definition batch_headers (eventType eventVersion serviceName : string)
  : gmap string string :=
  <["source-service" := serviceName]>
    (<["event-version" := eventVersion]>
      (<["event-type" := eventType]> ∅)).

(** The callback of [messages.map] in [publishBatch]. *)
Definition kafkaMessage (options : option PublishOptions) (msg : BatchEntry)
  : M (St BaseProducer) Message :=
  let* service := read serviceName in
  let* version := read eventVersion in
  let* base := on_sys (createBaseEvent (msg_eventType msg) service) in
  let event := with_correlationId base (correlationId_of options) in
  let* text := completes (JSON_stringify (message_object event (msg_payload msg))) in
  ret {| key := msg_key msg;
         value := text;
         headers := batch_headers (msg_eventType msg) version service |}.

Definition publishBatch (topic : string) (messages : list BatchEntry)
    (options : option PublishOptions)
  : M (St BaseProducer) (option (list RecordMetadata)) :=
  let* p := read producer in
  let* connected := read isConnected in
  if negb (bool_decide (is_Some p)) || negb connected then
    log LWarn "Kafka producer not connected, batch logged locally" [] >>
    ret None
  else
    try_catch
      (let* kafkaMessages := mapM (kafkaMessage options) messages in
       let* result :=
         on_client (producer_send
           {| topic := topic; compression := GZIP; messages := kafkaMessages |}) in
       log LDebug "Batch published"
         [("topic", JStr topic); ("count", JNum (Z.of_nat (length messages)))] >>
       ret (Some result))
      (fun error =>
         log LError "Failed to publish batch"
           [("topic", JStr topic); ("error", json_of_error error)] >>
         throw error).

Definition isProducerConnected : M (St BaseProducer) bool := read isConnected.

(** The calls of the public interface, for reasoning on histories. *)
Inductive Op :=
| OpConnect
| OpDisconnect
| OpPublish (topic eventType : string) (payload : JsValue) (key : string)
    (options : option PublishOptions)
| OpPublishBatch (topic : string) (messages : list BatchEntry)
    (options : option PublishOptions).

Definition call (op : Op) : M (St BaseProducer) unit :=
  match op with
  | OpConnect => connect
  | OpDisconnect => disconnect
  | OpPublish topic eventType payload key options =>
      publish topic eventType payload key options >> ret tt
  | OpPublishBatch topic messages options =>
      publishBatch topic messages options >> ret tt
  end.

(** The state after a history of calls, each awaited, errors caught by the
    caller. *)
Definition after (ops : list Op) (st : St BaseProducer) : St BaseProducer :=
  fold_left (fun s op => snd (call op s)) ops st.

(** A message of a batch carries its entry: the entry's key, the three
    headers of a batch, and as value the wire format of an envelope of the
    entry's event type and of this producer around the JSON text of the
    entry's payload. *)
Definition carries (o : BaseProducer) (options : option PublishOptions)
    (entry : BatchEntry) (m : Message) : Prop :=
  key m = msg_key entry
  /\ headers m = batch_headers (msg_eventType entry) (eventVersion o) (serviceName o)
  /\ exists eventId timestamp payload,
       JSON_stringify (msg_payload entry) = Normal payload
       /\ value m = Some (wire_format eventId (msg_eventType entry) timestamp "1.0"
                            (serviceName o) (correlationId_of options) payload).

(** The error that [JSON.stringify] throws on a payload, if it throws. *)
Definition stringify_error (payload : JsValue) : option JsError :=
  match JSON_stringify payload with
  | Throw e => Some e
  | Normal _ => None
  end.

(** The entries of a batch up to and including the first one whose payload
    [JSON.stringify] rejects, and the error it throws on that entry. *)
Fixpoint first_rejected (messages : list BatchEntry) : option (nat * JsError) :=
  match messages with
  | [] => None
  | entry :: rest =>
      match stringify_error (msg_payload entry) with
      | Some e => Some (1%nat, e)
      | None =>
          match first_rejected rest with
          | Some (n, e) => Some (S n, e)
          | None => None
          end
      end
  end.

(** The names of the four headers that copy fields of the envelope. *)
Definition envelope_headers : list string :=
  ["event-type"; "event-version"; "source-service"; "correlation-id"].

End Producer.

(** ** The subscriber (kafka/consumer.ts) *)

Module Consumer.

Import Kafka.

Record ConsumerHandlerConfig := {
  cfg_clientId : string;
  cfg_brokers : list string;
  cfg_groupId : string;
  cfg_topics : list string
}.

(** The application's handler.  It may read the clock and draw identifiers,
    and resolves or rejects; it has no hold on the Kafka client. *)
Definition MessageHandler : Type := EachMessagePayload -> M Sys unit.

Record BaseConsumer := {
  kafka : KafkaConfig;
  consumer : option ConsumerOptions;
  isConnected : bool;
  isRunning : bool;
  handler : option MessageHandler;
  topics : list string;
  logger : list LogRecord
}.

Definition set_isConnected (b : bool) (o : BaseConsumer) : BaseConsumer :=
  {| kafka := kafka o; consumer := consumer o; isConnected := b;
     isRunning := isRunning o; handler := handler o; topics := topics o;
     logger := logger o |}.

Definition set_isRunning (b : bool) (o : BaseConsumer) : BaseConsumer :=
  {| kafka := kafka o; consumer := consumer o; isConnected := isConnected o;
     isRunning := b; handler := handler o; topics := topics o;
     logger := logger o |}.

Definition set_handler (h : option MessageHandler) (o : BaseConsumer) : BaseConsumer :=
  {| kafka := kafka o; consumer := consumer o; isConnected := isConnected o;
     isRunning := isRunning o; handler := h; topics := topics o;
     logger := logger o |}.

Definition log (l : Level) (text : string) (meta : list (string * JsValue))
  : M (St BaseConsumer) unit :=
  update (fun o =>
    {| kafka := kafka o; consumer := consumer o; isConnected := isConnected o;
       isRunning := isRunning o; handler := handler o; topics := topics o;
       logger := logger o ++ [{| level := l; text := text; meta := meta |}] |}).

(** [new BaseConsumer(config, logger)]: the constructor asks the client for
    its consumer. *)
Definition new_BaseConsumer (config : ConsumerHandlerConfig)
    (logger : option (list LogRecord)) (w : World) : St BaseConsumer :=
  let options := {| groupId := cfg_groupId config;
                    sessionTimeout := 30000;
                    heartbeatInterval := 3000 |} in
  {| this := {| kafka := {| clientId := cfg_clientId config;
                            brokers := cfg_brokers config;
                            retry := {| initialRetryTime := Num 100; retries := Num 10 |} |};
                consumer := Some options;
                isConnected := false;
                isRunning := false;
                handler := None;
                topics := cfg_topics config;
                logger := default [] logger |};
     world := {| sys := sys w;
                 kafka_client := record_call (NewConsumer options) (kafka_client w) |} |}.

Definition setHandler (h : MessageHandler) : M (St BaseConsumer) unit :=
  update (set_handler (Some h)).

Definition connect : M (St BaseConsumer) unit :=
  let* c := read consumer in
  if negb (bool_decide (is_Some c)) then throw (Error "Consumer not initialized")
  else
    try_catch
      (on_client consumer_connect >>
       update (set_isConnected true) >>
       log LInfo "Kafka consumer connected" [])
      (fun error =>
         log LError "Failed to connect Kafka consumer" [("error", json_of_error error)] >>
         throw error).

Definition json_of_topics (ts : list string) : JsValue := JArr (List.map JStr ts).

(** The [eachMessage] callback that [start] hands to [consumer.run].  It reads
    the fields of the object when a message arrives. *)
Definition eachMessage (payload : EachMessagePayload) : M (St BaseConsumer) unit :=
  let* startTime := on_sys Date_now in
  try_catch
    (let* h := read handler in
     match h with
     | Some f => on_sys (f payload)
     | None => throw (TypeError "this.handler is not a function")
     end >>
     let* endTime := on_sys Date_now in
     log LDebug "Message processed"
       [("topic", JStr (in_topic payload));
        ("partition", JNum (in_partition payload));
        ("offset", JStr (in_offset (message payload)));
        ("processingMs", JNum (endTime - startTime))])
    (fun error =>
       log LError "Failed to process message"
         [("topic", JStr (in_topic payload));
          ("partition", JNum (in_partition payload));
          ("offset", JStr (in_offset (message payload)));
          ("error", json_of_error error)] >>
       (* Re-throw to prevent offset commit *)
       throw error).

Definition start : M (St BaseConsumer) unit :=
  let* c := read consumer in
  if negb (bool_decide (is_Some c)) then throw (Error "Consumer not initialized")
  else
    let* h := read handler in
    if negb (bool_decide (is_Some h)) then throw (Error "Message handler not set")
    else
      try_catch
        (let* ts := read topics in
         on_client (consumer_subscribe ts false) >>
         on_client consumer_run >>
         update (set_isRunning true) >>
         log LInfo "Consumer started" [("topics", json_of_topics ts)])
        (fun error =>
           log LError "Failed to start consumer" [("error", json_of_error error)] >>
           throw error).

Definition stop : M (St BaseConsumer) unit :=
  let* c := read consumer in
  if bool_decide (is_Some c) then
    on_client consumer_stop >>
    update (set_isRunning false) >>
    log LInfo "Consumer stopped" []
  else ret tt.

Definition disconnect : M (St BaseConsumer) unit :=
  let* c := read consumer in
  let* connected := read isConnected in
  if bool_decide (is_Some c) && connected then
    on_client consumer_disconnect >>
    update (set_isConnected false) >>
    log LInfo "Kafka consumer disconnected" []
  else ret tt.

Definition pause : M (St BaseConsumer) unit :=
  let* c := read consumer in
  let* running := read isRunning in
  if bool_decide (is_Some c) && running then
    let* ts := read topics in
    on_client (consumer_pause (List.map (fun topic => {| tp_topic := topic |}) ts)) >>
    log LInfo "Consumer paused" []
  else ret tt.

Definition resume : M (St BaseConsumer) unit :=
  let* c := read consumer in
  let* running := read isRunning in
  if bool_decide (is_Some c) && running then
    let* ts := read topics in
    on_client (consumer_resume (List.map (fun topic => {| tp_topic := topic |}) ts)) >>
    log LInfo "Consumer resumed" []
  else ret tt.

Definition isConsumerConnected : M (St BaseConsumer) bool := read isConnected.
Definition isConsumerRunning : M (St BaseConsumer) bool := read isRunning.

(** Modelled from the spec: the message loop of the external transport
    (section 6, [run(onMessage)]): it invokes the callback once for a
    delivered message and advances the committed position only when the
    callback returns successfully. *)
Definition deliver (payload : EachMessagePayload) : M (St BaseConsumer) unit :=
  eachMessage payload >>
  on_client (commit (in_topic payload) (in_partition payload)
                    (in_offset (message payload))).

(** Whether delivery is paused, respectively flowing, for every topic of the
    subscriber while it runs. *)
Definition is_paused_state (st : St BaseConsumer) : bool :=
  isRunning (this st)
  && forallb (is_paused (kafka_client (world st))) (topics (this st)).

Definition is_running_state (st : St BaseConsumer) : bool :=
  isRunning (this st)
  && forallb (fun t => negb (is_paused (kafka_client (world st)) t)) (topics (this st)).

(** The calls of the public interface, for reasoning on histories. *)
Inductive Op :=
| OpSetHandler (h : MessageHandler)
| OpConnect
| OpStart
| OpStop
| OpDisconnect
| OpPause
| OpResume.

Definition is_setHandler (op : Op) : bool :=
  match op with OpSetHandler _ => true | _ => false end.

Definition call (op : Op) : M (St BaseConsumer) unit :=
  match op with
  | OpSetHandler h => setHandler h
  | OpConnect => connect
  | OpStart => start
  | OpStop => stop
  | OpDisconnect => disconnect
  | OpPause => pause
  | OpResume => resume
  end.

(** The state after a history of calls, each awaited, errors caught by the
    caller. *)
Definition after (ops : list Op) (st : St BaseConsumer) : St BaseConsumer :=
  fold_left (fun s op => snd (call op s)) ops st.

End Consumer.

(** ** Sample worlds and objects, for evaluating the definitions *)

Module Sample.

Import Kafka.

Definition the_sys : Sys :=
  {| now := 1700000000000;
     lapse := [5; 7; 0; 3];
     rng := fun n => (N.of_nat n * 1234567890123456789012345678901234567 + 99)%N;
     draws := 0 |}.


Definition delivered : list RecordMetadata :=
  [{| topicName := "banking.users.events"; partition := 0; errorCode := 0;
      offset := "0" |}].

(** A broker that accepts everything. *)
Definition accepting : list Call -> Call -> Reply := fun _ _ => Ack delivered.

(** A broker that accepts connections and rejects every send. *)
Definition rejecting_sends : list Call -> Call -> Reply :=
  fun _ c => match c with Send _ => Nack (Error "Kafka error") | _ => Ack [] end.

Definition the_world : World :=
  {| sys := the_sys;
     kafka_client := {| calls := []; answer := accepting; paused := [];
                        committed := [] |} |}.

Definition producer_config : Producer.ProducerConfig :=
  {| Producer.cfg_clientId := "test-client";
     Producer.cfg_brokers := ["localhost:9092"];
     Producer.cfg_serviceName := "test-service";
     Producer.cfg_retries := None;
     Producer.cfg_initialRetryTime := None |}.

(** A producer fresh from its constructor, and after [connect()]. *)
Definition new_producer : St Producer.BaseProducer :=
  {| this := Producer.new_BaseProducer producer_config None; world := the_world |}.

Definition connected_producer : St Producer.BaseProducer :=
  snd (Producer.connect new_producer).

(** Caller's headers that reuse two of the fixed names. *)
Definition spoofing : Producer.PublishOptions :=
  {| Producer.opt_correlationId := Some "req-7";
     Producer.opt_headers :=
       Some (<["event-type" := "Spoofed"]> (<["source-service" := "elsewhere"]> ∅)) |}.

Definition tracing : Producer.PublishOptions :=
  {| Producer.opt_correlationId := Some "req-7";
     Producer.opt_headers := Some (<["tenant" := "acme"]> ∅) |}.

Definition two_users : list Producer.BatchEntry :=
  [{| Producer.msg_eventType := UserEvents.CREATED;
      Producer.msg_payload := JObj [("id", JStr "1")];
      Producer.msg_key := "1" |};
   {| Producer.msg_eventType := UserEvents.UPDATED;
      Producer.msg_payload := JObj [("id", JStr "2")];
      Producer.msg_key := "2" |}].

(** A batch whose second payload holds a [BigInt]. *)
Definition one_bigint : list Producer.BatchEntry :=
  [{| Producer.msg_eventType := UserEvents.CREATED;
      Producer.msg_payload := JObj [("id", JStr "1")];
      Producer.msg_key := "1" |};
   {| Producer.msg_eventType := UserEvents.UPDATED;
      Producer.msg_payload := JObj [("id", JStr "2"); ("balance", JBigInt 10)];
      Producer.msg_key := "2" |};
   {| Producer.msg_eventType := UserEvents.LOCKED;
      Producer.msg_payload := JObj [("id", JStr "3")];
      Producer.msg_key := "3" |}].


Definition consumer_config : Consumer.ConsumerHandlerConfig :=
  {| Consumer.cfg_clientId := "test-client";
     Consumer.cfg_brokers := ["localhost:9092"];
     Consumer.cfg_groupId := "test-group";
     Consumer.cfg_topics := ["test-topic"; "banking.users.events"] |}.

Definition new_consumer : St Consumer.BaseConsumer :=
  Consumer.new_BaseConsumer consumer_config None the_world.

(** A handler that rejects the messages at offset 13 and resolves the
    others. *)
Definition picky : Consumer.MessageHandler :=
  fun payload =>
    if String.eqb (in_offset (message payload)) "13"
    then throw (Error "Processing failed")
    else ret tt.

Definition running_consumer : St Consumer.BaseConsumer :=
  Consumer.after [Consumer.OpSetHandler picky; Consumer.OpConnect; Consumer.OpStart]
    new_consumer.

Definition message_at (offset : string) : EachMessagePayload :=
  {| in_topic := "test-topic";
     in_partition := 0;
     message := {| in_key := Some "user-123"; in_value := Some "test";
                   in_offset := offset; in_headers := ∅ |} |}.

End Sample.

(** ** Validators (validators/index.ts) and currencies (models/index.ts)

    Where single characters matter a JavaScript string is taken as the list
    of its UTF-16 code units. *)

Module Validators.

Definition SUPPORTED_CURRENCIES : list string :=
  ["USD"; "EUR"; "GBP"; "JPY"; "CAD"; "AUD"].

(** The character classes of the patterns, on code units. *)
Definition is_digit (c : N) : bool := ((48 <=? c) && (c <=? 57))%N.

(** [[\x00-\x08\x0B\x0C\x0E-\x1F\x7F]] *)
Definition is_control (c : N) : bool :=
  ((c <=? 8) || (c =? 11) || (c =? 12) || ((14 <=? c) && (c <=? 31)) || (c =? 127))%N.

(** White space and line terminators, as [trim] and [Number] strip them. *)
Definition is_space (c : N) : bool :=
  ((c =? 9) || (c =? 10) || (c =? 11) || (c =? 12) || (c =? 13) || (c =? 32)
   || (c =? 160) || (c =? 5760) || ((8192 <=? c) && (c <=? 8202))
   || (c =? 8232) || (c =? 8233) || (c =? 8239) || (c =? 8287) || (c =? 12288)
   || (c =? 65279))%N.

Fixpoint drop_spaces (s : list N) : list N :=
  match s with
  | [] => []
  | c :: rest => if is_space c then drop_spaces rest else s
  end.

(** [s.trim()] *)
Definition trim (s : list N) : list N := rev (drop_spaces (rev (drop_spaces s))).

(** A text does not start with white space. *)
Definition starts_clean (s : list N) : Prop :=
  match s with [] => True | c :: _ => is_space c = false end.

(** [sanitizeInput]: the two [replace] calls, then [trim]. *)
Definition sanitizeInput (input : list N) : list N :=
  trim
    (List.filter (fun c => negb (is_control c))
       (List.filter (fun c => negb (c =? 0)%N) input)).

(** [/^\d{9}$/] *)
Definition nine_digits (value : list N) : bool :=
  (length value =? 9)%nat && forallb is_digit value.

(** [Number(c)] for a string of one code unit; [None] is [NaN]. *)
Definition Number_of_char (c : N) : option Z :=
  if is_digit c then Some (Z.of_N c - 48)
  else if is_space c then Some 0
  else None.

(** [digits[i]], [undefined] past the end counting as [NaN] in a sum. *)
Definition digit_at (digits : list (option Z)) (i : nat) : option Z :=
  nth i digits None.

Definition nan_add (a b : option Z) : option Z :=
  match a, b with Some x, Some y => Some (x + y) | _, _ => None end.

Definition nan_scale (k : Z) (a : option Z) : option Z :=
  match a with Some x => Some (k * x) | None => None end.

Definition nan_rem (a : option Z) (m : Z) : option Z :=
  match a with Some x => Some (Z.rem x m) | None => None end.

(** The checksum computed by the custom rule of [routingNumberSchema]. *)
Definition routing_checksum (value : list N) : option Z :=
  let digits := List.map Number_of_char value in
  let d := digit_at digits in
  nan_rem
    (nan_add
       (nan_add (nan_scale 3 (nan_add (nan_add (d 0%nat) (d 3%nat)) (d 6%nat)))
                (nan_scale 7 (nan_add (nan_add (d 1%nat) (d 4%nat)) (d 7%nat))))
       (nan_add (nan_add (d 2%nat) (d 5%nat)) (d 8%nat)))
    10.

Inductive CustomResult :=
| Value (value : list N)
| HelperError (code : string).

(** The custom rule: [helpers.error('string.checksum')] unless the checksum
    is [0]. *)
Definition routing_custom (value : list N) : CustomResult :=
  match routing_checksum value with
  | Some 0 => Value value
  | _ => HelperError "string.checksum"
  end.

(** A string passes both rules of [routingNumberSchema]. *)
Definition routing_number_ok (value : list N) : bool :=
  nine_digits value
  && match routing_custom value with Value _ => true | HelperError _ => false end.

(** The code units of an ASCII text. *)
Definition units (s : string) : list N :=
  List.map N_of_ascii (list_ascii_of_string s).

End Validators.

Module Currency.
Definition USD := "USD".
Definition EUR := "EUR".
Definition GBP := "GBP".
Definition JPY := "JPY".
Definition CAD := "CAD".
Definition AUD := "AUD".
(** [Object.values(Currency)] *)
Definition values : list string := [USD; EUR; GBP; JPY; CAD; AUD].
End Currency.

Module Models.
Definition isValidCurrency (code : string) : bool :=
  bool_decide (code ∈ Currency.values).
End Models.

(** ** More sample states *)

Module Sample2.

Import Kafka.

(** A broker that refuses connections. *)
Definition refusing : list Call -> Call -> Reply :=
  fun _ c =>
    match c with
    | ProducerConnect | ConsumerConnect => Nack (Error "Connection refused")
    | _ => Ack []
    end.

(** A broker that accepts everything but subscriptions. *)
Definition no_subscription : list Call -> Call -> Reply :=
  fun _ c => match c with Subscribe _ _ => Nack (Error "Unknown topic") | _ => Ack [] end.

Definition world_of (answer : list Call -> Call -> Reply) : World :=
  {| sys := Sample.the_sys;
     kafka_client := {| calls := []; answer := answer; paused := []; committed := [] |} |}.

Definition producer_on (answer : list Call -> Call -> Reply) : St Producer.BaseProducer :=
  {| this := Producer.new_BaseProducer Sample.producer_config None;
     world := world_of answer |}.

Definition consumer_on (answer : list Call -> Call -> Reply) : St Consumer.BaseConsumer :=
  Consumer.new_BaseConsumer Sample.consumer_config None (world_of answer).

(** A handler that resolves every message. *)
Definition easy : Consumer.MessageHandler := fun _ => ret tt.

End Sample2.

(** ** What each side may ask of the client *)

Module Protocol.

Import Kafka.

(** The headers that both [publish] and [publishBatch] write. *)
Definition common_headers : list string :=
  ["event-type"; "event-version"; "source-service"].

Definition has_headers (names : list string) (m : Message) : Prop :=
  Forall (fun name => is_Some (headers m !! name)) names.

(** Calls of a publisher: idempotent producers, connections, and compressed
    records whose messages all carry the common headers. *)
Definition producer_call (c : Call) : Prop :=
  match c with
  | NewProducer options => idempotent options = true
  | ProducerConnect | ProducerDisconnect => True
  | Send r => compression r = GZIP /\ Forall (has_headers common_headers) (messages r)
  | _ => False
  end.

(** Calls of a subscriber on the topics [ts]: connections, the subscription
    to [ts] (never from the beginning), the loop, and pausing or resuming
    exactly [ts]. *)
Definition consumer_call (ts : list string) (c : Call) : Prop :=
  match c with
  | ConsumerConnect | ConsumerDisconnect | Run | Stop => True
  | Subscribe topics fromBeginning => topics = ts /\ fromBeginning = false
  | Pause tps | Resume tps => List.map tp_topic tps = ts
  | _ => False
  end.

End Protocol.

(** * Properties *)

Import Events Kafka.

(** ** Running the monad *)

Lemma bind_normal {S A B} (m : M S A) (k : A -> M S B) s a s' :
  m s = (Normal a, s') -> bind m k s = k a s'.
Proof. intros H. unfold bind. now rewrite H. Qed.

Lemma bind_throw {S A B} (m : M S A) (k : A -> M S B) s e s' :
  m s = (Throw e, s') -> bind m k s = (Throw e, s').
Proof. intros H. unfold bind. now rewrite H. Qed.

Lemma try_catch_normal {S A} (body : M S A) handler s a s' :
  body s = (Normal a, s') -> try_catch body handler s = (Normal a, s').
Proof. intros H. unfold try_catch. now rewrite H. Qed.

Lemma try_catch_throw {S A} (body : M S A) handler s e s' :
  body s = (Throw e, s') -> try_catch body handler s = handler e s'.
Proof. intros H. unfold try_catch. now rewrite H. Qed.

(** ** The envelope *)

Lemma createBaseEvent_eq eventType source y :
  createBaseEvent eventType source y =
    (Normal {| eventId := uuid_of (rng y (draws y));
               eventType := eventType;
               timestamp := toISOString (now (tick y));
               version := "1.0";
               correlationId := None;
               causationId := None;
               source := source |},
     {| now := now (tick y); lapse := lapse (tick y); rng := rng y;
        draws := S (draws y) |}).
Proof.
  cbv [createBaseEvent bind uuidv4 Date_now ret tick now lapse rng draws].
  destruct y as [n [|d rest] g k]; reflexivity.
Qed.



(** *** Identifiers: the printed form determines the sixteen bytes *)

Lemma in_upto n a : 0 <= a < Z.of_nat n -> In a (upto n).
Proof.
  intros H. unfold upto. apply in_map_iff. exists (Z.to_nat a). split; [lia|].
  apply in_seq. lia.
Qed.









(** ** Claims on the envelope *)

(** *** Timestamps: the printed form determines the instant *)

Ltac modlia := Z.div_mod_to_equations; lia.

Lemma civil_from_days_spec days :
  let '(y, m, d) := civil_from_days days in
  1 <= m <= 12 /\ 1 <= d <= 31 /\ days_from_civil y m d = days.
Proof.
  unfold civil_from_days. cbv zeta.
  set (z := days + 719468). set (era := z / 146097). set (doe := z - era * 146097).
  set (yoe := (doe - doe / 1460 + doe / 36524 - doe / 146096) / 365).
  set (doy := doe - (365 * yoe + yoe / 4 - yoe / 100)).
  set (mp := (5 * doy + 2) / 153).
  assert (Hdoe : 0 <= doe < 146097) by (subst doe era; modlia).
  assert (Hyoe : 0 <= yoe < 400) by (subst yoe; modlia).
  assert (Hdoy : 0 <= doy <= 365) by (subst doy yoe; modlia).
  assert (Hmp : 0 <= mp <= 11) by (subst mp; modlia).
  assert (Hd : 1 <= doy - (153 * mp + 2) / 5 + 1 <= 31) by (subst mp; modlia).
  split; [destruct (mp <? 10) eqn:E; lia|]. split; [exact Hd|].
  unfold days_from_civil. cbv zeta.
  set (m := if mp <? 10 then mp + 3 else mp - 9).
  assert (Hm : (if m <=? 2 then m + 9 else m - 3) = mp)
    by (subst m; destruct (mp <? 10) eqn:E; [destruct (mp + 3 <=? 2) eqn:F
                                            |destruct (mp - 9 <=? 2) eqn:F]; lia).
  rewrite Hm.
  replace ((if m <=? 2 then yoe + era * 400 + (if m <=? 2 then 1 else 0) - 1
            else yoe + era * 400 + (if m <=? 2 then 1 else 0)))
    with (yoe + era * 400) by (destruct (m <=? 2); lia).
  rewrite Z.div_add by lia. rewrite (Z.div_small yoe 400) by lia.
  replace (yoe + era * 400 - (0 + era) * 400) with yoe by lia.
  subst doy doe z. lia.
Qed.

Lemma civil_from_days_inj a b : civil_from_days a = civil_from_days b -> a = b.
Proof.
  intros E. pose proof (civil_from_days_spec a) as Ha.
  pose proof (civil_from_days_spec b) as Hb. rewrite E in Ha.
  destruct (civil_from_days b) as [[y m] d]. lia.
Qed.

Lemma append_cons c s t : String c s +:+ t = String c (s +:+ t).
Proof. reflexivity. Qed.




Lemma append_inv_prefix s1 : forall s2 t1 t2,
  String.length s1 = String.length s2 ->
  s1 +:+ t1 = s2 +:+ t2 -> s1 = s2 /\ t1 = t2.
Proof.
  induction s1 as [|c s1 IH]; intros [|c2 s2] t1 t2 Hl E; try discriminate Hl.
  - auto.
  - rewrite !append_cons in E. injection E as -> E. cbn [String.length] in Hl.
    destruct (IH s2 t1 t2 ltac:(lia) E) as [-> ->]. auto.
Qed.














(** C3 (as amended): [createBaseEvent] makes no run-time check of its
    [eventType] argument.  For every string, in the enumeration or not, it
    returns normally, with an envelope that carries that string as its event
    type; only the static parameter type [EventType] keeps other strings
    out. *)
Theorem createBaseEvent_accepts_every_string (eventType source : string) (y : Sys) :
  exists ev y',
    createBaseEvent eventType source y = (Normal ev, y')
    /\ Events.eventType ev = eventType
    /\ Events.source ev = source.
Proof.
  rewrite createBaseEvent_eq. eexists _, _. split; [reflexivity|]. split; reflexivity.
Qed.

(** C3 (as stated) fails: called with a string outside the enumeration,
    [createBaseEvent] returns an envelope and raises nothing. *)
Lemma createBaseEvent_unknown_type_not_rejected :
  is_EventType "AccountFrozen" = false
  /\ fst (createBaseEvent "AccountFrozen" "ledger" Sample.the_sys) =
       Normal {| eventId := "00000000-0000-4000-8000-000000000063";
                 eventType := "AccountFrozen";
                 timestamp := "2023-11-14T22:13:20.005Z";
                 version := "1.0";
                 correlationId := None;
                 causationId := None;
                 source := "ledger" |}
  /\ (forall e y', createBaseEvent "AccountFrozen" "ledger" Sample.the_sys <> (Throw e, y')).
Proof.
  split; [vm_compute; reflexivity|]. split; [vm_compute; reflexivity|].
  intros e y'. rewrite createBaseEvent_eq. discriminate.
Qed.




(** ** The publisher *)

Section Publisher.

Import Producer.

Lemma connect_when_connected (st : St BaseProducer) :
  isConnected (this st) = true -> connect st = (Normal tt, st).
Proof. intros H. unfold connect, bind, read. now rewrite H. Qed.

(** The properties of a message object are enumerated as they are written:
    none of its keys is an array index and none is repeated. *)
Lemma own_properties_message {A} (a b c d e f g h : A) :
  own_properties [("eventId", a); ("eventType", b); ("timestamp", c); ("version", d);
                  ("source", e); ("correlationId", f); ("causationId", g);
                  ("payload", h)]
  = [("eventId", a); ("eventType", b); ("timestamp", c); ("version", d);
     ("source", e); ("correlationId", f); ("causationId", g); ("payload", h)].
Proof. reflexivity. Qed.

(** [JSON.stringify] on a message object: it throws what it throws on the
    payload, and otherwise gives the wire format. *)
Lemma stringify_message id et ts ver src corr payload :
  JSON_stringify
    (message_object {| eventId := id; eventType := et; timestamp := ts; version := ver;
                       correlationId := corr; causationId := None; source := src |}
                    payload)
  = match JSON_stringify payload with
    | Normal text => Normal (Some (wire_format id et ts ver src corr text))
    | Throw e => Throw e
    end.
Proof.
  unfold JSON_stringify, message_object.
  cbn [serialize List.map eventId Events.eventType timestamp version source
       correlationId causationId json_of_option].
  rewrite own_properties_message. unfold wire_format.
  destruct corr as [c|], (serialize payload) as [[text|]|e]; reflexivity.
Qed.

(** What [publish] does on a connected producer with a payload that
    [JSON.stringify] accepts, whatever the broker answers. *)
Lemma publish_connected st topic eventType payload key options p text :
  producer (this st) = Some p ->
  isConnected (this st) = true ->
  JSON_stringify payload = Normal text ->
  let y := sys (world st) in
  let k := kafka_client (world st) in
  let m :=
    {| key := key;
       value := Some (wire_format (uuid_of (rng y (draws y))) eventType
                        (toISOString (now (tick y))) "1.0" (serviceName (this st))
                        (correlationId_of options) text);
       headers := publish_headers eventType (eventVersion (this st))
                    (serviceName (this st)) options |} in
  let r := {| topic := topic; compression := GZIP; messages := [m] |} in
  exists c st',
    publish topic eventType payload key options st = (c, st')
    /\ kafka_client (world st') = record_call (Send r) k
    /\ c = match answer k (calls k) (Send r) with
           | Ack metadata => Normal (Some metadata)
           | Nack e => Throw e
           end.
Proof.
  intros Hp Hc Ht y k m r. unfold publish.
  cbv [bind read]. rewrite Hp, Hc.
  cbv [bool_decide negb orb decide_rel is_Some_dec on_sys].
  rewrite createBaseEvent_eq.
  cbv [try_catch completes with_correlationId].
  cbn [eventId Events.eventType timestamp version source causationId].
  rewrite stringify_message, Ht.
  cbv [on_client producer_send request log update ret throw].
  cbn [world kafka_client this sys eventVersion serviceName].
  fold y k m r.
  destruct (answer k (calls k) (Send r)) as [metadata|e];
    eexists _, _; split; try reflexivity; split; reflexivity.
Qed.

(** What [publish] does on a connected producer with a payload that
    [JSON.stringify] rejects: the error is logged and thrown, nothing reaches
    the client. *)
Lemma publish_rejected st topic eventType payload key options p e :
  producer (this st) = Some p ->
  isConnected (this st) = true ->
  JSON_stringify payload = Throw e ->
  exists st',
    publish topic eventType payload key options st = (Throw e, st')
    /\ kafka_client (world st') = kafka_client (world st)
    /\ last (logger (this st'))
       = Some {| level := LError; text := "Failed to publish message";
                 meta := [("topic", JStr topic); ("eventType", JStr eventType);
                          ("error", json_of_error e)] |}.
Proof.
  intros Hp Hc Ht. unfold publish.
  cbv [bind read]. rewrite Hp, Hc.
  cbv [bool_decide negb orb decide_rel is_Some_dec on_sys].
  rewrite createBaseEvent_eq.
  cbv [try_catch completes with_correlationId].
  cbn [eventId Events.eventType timestamp version source causationId].
  rewrite stringify_message, Ht.
  cbv [log update throw].
  eexists. split; [reflexivity|]. split; [reflexivity|]. cbn. apply last_snoc.
Qed.


Lemma publish_headers_present eventType version service options name :
  name ∈ envelope_headers ->
  is_Some (publish_headers eventType version service options !! name).
Proof.
  intros Hin. unfold publish_headers, envelope_headers in *.
  apply lookup_union_is_Some. right.
  repeat (apply elem_of_cons in Hin; destruct Hin as [->|Hin]);
    [| | | |now apply elem_of_nil in Hin]; now simplify_map_eq.
Qed.

(** C10: [connect()] on a connected producer returns at once and leaves the
    whole state as it was: the fields of the object, the producer it holds,
    and the calls the client has received (no [kafka.producer(...)], no
    [producer.connect()]). *)
Theorem connect_idempotent (st : St BaseProducer) :
  isConnected (this st) = true ->
  connect st = (Normal tt, st)
  /\ calls (kafka_client (world (snd (connect st)))) = calls (kafka_client (world st))
  /\ producer (this (snd (connect st))) = producer (this st).
Proof.
  intros H. rewrite (connect_when_connected st H). repeat split.
Qed.

Lemma connect_idempotent_witness :
  isConnected (this Sample.connected_producer) = true
  /\ connect Sample.connected_producer = (Normal tt, Sample.connected_producer).
Proof.
  assert (H : isConnected (this Sample.connected_producer) = true)
    by (vm_compute; reflexivity).
  split; [exact H|]. exact (proj1 (connect_idempotent Sample.connected_producer H)).
Defined.

(** C2: [publish] on a producer that is not connected returns [null] (the
    unavailable signal) normally, whatever its arguments; the world is left as
    it was, so the client receives no call and in particular no [send]. *)
Theorem publish_unavailable st topic eventType payload key options :
  producer (this st) = None \/ isConnected (this st) = false ->
  exists st',
    publish topic eventType payload key options st = (Normal None, st')
    /\ world st' = world st
    /\ sent (kafka_client (world st')) = sent (kafka_client (world st))
    /\ producer (this st') = producer (this st)
    /\ isConnected (this st') = isConnected (this st).
Proof.
  intros H. unfold publish, bind, read.
  assert (E : negb (bool_decide (is_Some (producer (this st))))
              || negb (isConnected (this st)) = true).
  { destruct H as [-> | ->]; [reflexivity|]. apply orb_true_r. }
  rewrite E. cbn. eexists. repeat split.
Qed.

Lemma publish_unavailable_witness :
  exists st',
    publish "test-topic" UserEvents.CREATED (JObj [("id", JStr "123")]) "user-123" None
      Sample.new_producer = (Normal None, st')
    /\ sent (kafka_client (world st')) = [].
Proof.
  destruct (publish_unavailable Sample.new_producer "test-topic" UserEvents.CREATED
              (JObj [("id", JStr "123")]) "user-123" None)
    as (st' & Hp & _ & Hs & _).
  - left. reflexivity.
  - exists st'. split; [exact Hp|]. rewrite Hs. reflexivity.
Defined.




(** *** Batches *)

Lemma kafkaMessage_eq options msg (st : St BaseProducer) :
  let y := sys (world st) in
  kafkaMessage options msg st =
    (match JSON_stringify (msg_payload msg) with
     | Normal payload =>
         Normal {| key := msg_key msg;
                   value := Some (wire_format (uuid_of (rng y (draws y))) (msg_eventType msg)
                                    (toISOString (now (tick y))) "1.0"
                                    (serviceName (this st)) (correlationId_of options)
                                    payload);
                   headers := batch_headers (msg_eventType msg) (eventVersion (this st))
                                (serviceName (this st)) |}
     | Throw e => Throw e
     end,
     {| this := this st;
        world := {| sys := {| now := now (tick y); lapse := lapse (tick y);
                              rng := rng y; draws := S (draws y) |};
                    kafka_client := kafka_client (world st) |} |}).
Proof.
  intros y. unfold kafkaMessage. cbv [bind read on_sys].
  rewrite createBaseEvent_eq.
  cbv [completes with_correlationId].
  cbn [eventId Events.eventType timestamp version source causationId].
  rewrite stringify_message.
  destruct (JSON_stringify (msg_payload msg)); reflexivity.
Qed.

Lemma stringify_error_some payload e :
  stringify_error payload = Some e -> JSON_stringify payload = Throw e.
Proof.
  unfold stringify_error. destruct (JSON_stringify payload); intros H; now inversion H.
Qed.

Lemma stringify_error_none payload :
  stringify_error payload = None -> exists text, JSON_stringify payload = Normal text.
Proof.
  unfold stringify_error. destruct (JSON_stringify payload) as [text|e]; intros H;
    [now exists text|discriminate H].
Qed.


(** What [first_rejected] finds: the entry at position [n - 1] is the first
    one whose payload [JSON.stringify] rejects, and [e] is the error thrown
    on it. *)
Lemma first_rejected_some messages :
  forall n e,
  first_rejected messages = Some (n, e) ->
  exists k entry,
    n = S k
    /\ messages !! k = Some entry
    /\ stringify_error (msg_payload entry) = Some e
    /\ forall (j : nat) earlier,
         (j < k)%nat -> messages !! j = Some earlier ->
         stringify_error (msg_payload earlier) = None.
Proof.
  induction messages as [|entry rest IH]; intros n e H; [discriminate H|].
  cbn [first_rejected] in H.
  destruct (stringify_error (msg_payload entry)) as [e0|] eqn:E.
  - injection H as <- <-. exists 0%nat, entry. repeat split; [exact E|]. intros j earlier Hj. lia.
  - destruct (first_rejected rest) as [[n' e']|] eqn:R; [|discriminate H].
    injection H as <- <-.
    destruct (IH n' e' eq_refl) as (k & found & -> & Hk & He & Hbefore).
    exists (S k), found. repeat split; [exact Hk|exact He|].
    intros [|j] earlier Hj Hin.
    + cbn in Hin. injection Hin as <-. exact E.
    + cbn in Hin. apply (Hbefore j); [lia|exact Hin].
Qed.

(** [messages.map] touches neither the object nor the client.  It stops at
    the first entry whose payload [JSON.stringify] rejects, with the error
    thrown there and one identifier drawn for each entry reached; without
    such an entry it yields one message per entry, in the order of the
    entries, the message at position [i] holding the identifier of the
    [i]-th next draw. *)
Lemma mapM_kafkaMessage options messages :
  forall st : St BaseProducer,
  exists c st',
    mapM (kafkaMessage options) messages st = (c, st')
    /\ this st' = this st
    /\ kafka_client (world st') = kafka_client (world st)
    /\ rng (sys (world st')) = rng (sys (world st))
    /\ match first_rejected messages with
       | Some (n, e) =>
           c = Throw e /\ draws (sys (world st')) = (draws (sys (world st)) + n)%nat
       | None =>
           exists ms,
             c = Normal ms
             /\ draws (sys (world st')) = (draws (sys (world st)) + length messages)%nat
             /\ Forall2 (carries (this st) options) messages ms
             /\ forall (i : nat) entry,
                  messages !! i = Some entry ->
                  exists m timestamp payload,
                    ms !! i = Some m
                    /\ JSON_stringify (msg_payload entry) = Normal payload
                    /\ value m =
                         Some (wire_format
                                 (uuid_of (rng (sys (world st))
                                             (draws (sys (world st)) + i)%nat))
                                 (msg_eventType entry) timestamp "1.0"
                                 (serviceName (this st)) (correlationId_of options)
                                 payload)
       end.
Proof.
  induction messages as [|msg rest IH]; intros st.
  - exists (Normal []), st. repeat split. exists []. repeat split; [cbn; lia|constructor|].
    intros i entry H. discriminate H.
  - cbn [mapM first_rejected]. unfold bind, stringify_error. rewrite kafkaMessage_eq.
    cbv zeta. destruct (JSON_stringify (msg_payload msg)) as [payload|e] eqn:E.
    + match goal with
      | |- context [mapM _ rest ?s] =>
          destruct (IH s) as (c & st' & Hrest & Hthis & Hk & Hrng & Hcase)
      end.
      rewrite Hrest. cbn [this world kafka_client sys rng draws] in *.
      destruct (first_rejected rest) as [[n e]|].
      * destruct Hcase as [-> Hdraws].
        exists (Throw e), st'. repeat split; try assumption. lia.
      * destruct Hcase as (ms & -> & Hdraws & Hall & Hids).
        eexists (Normal _), st'. split; [reflexivity|]. repeat split; try assumption.
        eexists. split; [reflexivity|]. split; [cbn [length]; lia|]. split.
        { constructor; [|exact Hall]. unfold carries. cbn [key value headers].
          repeat split. eexists _, _, payload. split; [exact E|reflexivity]. }
        intros [|i] entry Hi.
        { cbn in Hi. injection Hi as <-. eexists _, _, payload.
          split; [reflexivity|]. split; [exact E|]. cbn [value].
          now rewrite Nat.add_0_r. }
        cbn in Hi. destruct (Hids i entry Hi) as (m & ts & text & Hm & Ht & Hv).
        exists m, ts, text. split; [exact Hm|]. split; [exact Ht|].
        rewrite Hv, Nat.add_succ_r. reflexivity.
    + eexists (Throw e), _. split; [reflexivity|].
      cbn [this world kafka_client sys rng draws]. repeat split. lia.
Qed.

(** What [publishBatch] does on a connected producer when [JSON.stringify]
    accepts every payload, whatever the broker answers. *)
Lemma publishBatch_connected st topic messages options p :
  producer (this st) = Some p ->
  isConnected (this st) = true ->
  first_rejected messages = None ->
  let k := kafka_client (world st) in
  let y := sys (world st) in
  exists c st' ms,
    publishBatch topic messages options st = (c, st')
    /\ Forall2 (carries (this st) options) messages ms
    /\ kafka_client (world st') =
         record_call (Send {| topic := topic; compression := GZIP; messages := ms |}) k
    /\ c = match answer k (calls k)
                   (Send {| topic := topic; compression := GZIP; messages := ms |}) with
           | Ack metadata => Normal (Some metadata)
           | Nack e => Throw e
           end
    /\ draws (sys (world st')) = (draws y + length messages)%nat
    /\ forall (i : nat) entry,
         messages !! i = Some entry ->
         exists m timestamp payload,
           ms !! i = Some m
           /\ JSON_stringify (msg_payload entry) = Normal payload
           /\ value m =
                Some (wire_format (uuid_of (rng y (draws y + i)%nat))
                        (msg_eventType entry) timestamp "1.0" (serviceName (this st))
                        (correlationId_of options) payload).
Proof.
  intros Hp Hc Hnone k y. unfold publishBatch.
  cbv [bind read]. rewrite Hp, Hc.
  cbv [bool_decide negb orb decide_rel is_Some_dec try_catch].
  destruct (mapM_kafkaMessage options messages st)
    as (c0 & st1 & Hmap & Hthis & Hk & _ & Hcase).
  rewrite Hnone in Hcase. destruct Hcase as (ms & -> & Hdraws & Hall & Hids).
  rewrite Hmap.
  cbv [on_client producer_send request log update ret throw].
  rewrite Hk. fold k.
  destruct (answer k (calls k) (Send {| topic := topic; compression := GZIP; messages := ms |}))
    as [metadata|e] eqn:Ea;
    eexists _, _, ms; (split; [reflexivity|]); (split; [exact Hall|]);
    (split; [reflexivity|]); rewrite Ea; (split; [reflexivity|]);
    cbn [world sys]; (split; [exact Hdraws|exact Hids]).
Qed.

(** What [publishBatch] does on a connected producer when [JSON.stringify]
    rejects a payload: the error of the first such entry is logged and
    thrown, nothing reaches the client. *)
Lemma publishBatch_rejected st topic messages options p n e :
  producer (this st) = Some p ->
  isConnected (this st) = true ->
  first_rejected messages = Some (n, e) ->
  exists st',
    publishBatch topic messages options st = (Throw e, st')
    /\ kafka_client (world st') = kafka_client (world st)
    /\ draws (sys (world st')) = (draws (sys (world st)) + n)%nat
    /\ producer (this st') = Some p
    /\ isConnected (this st') = true
    /\ last (logger (this st'))
       = Some {| level := LError; text := "Failed to publish batch";
                 meta := [("topic", JStr topic); ("error", json_of_error e)] |}.
Proof.
  intros Hp Hc Hsome. unfold publishBatch.
  cbv [bind read]. rewrite Hp, Hc.
  cbv [bool_decide negb orb decide_rel is_Some_dec try_catch].
  destruct (mapM_kafkaMessage options messages st)
    as (c0 & st1 & Hmap & Hthis & Hk & _ & Hcase).
  rewrite Hsome in Hcase. destruct Hcase as [-> Hdraws].
  rewrite Hmap. cbv [log update throw].
  eexists. split; [reflexivity|]. cbn [world this kafka_client sys].
  split; [exact Hk|]. split; [exact Hdraws|]. rewrite Hthis.
  cbn [producer isConnected logger]. split; [exact Hp|]. split; [exact Hc|].
  apply last_snoc.
Qed.


(** Every message of a batch lacks the [correlation-id] header. *)
Lemma carries_no_correlation_header o options entry m :
  carries o options entry m -> headers m !! "correlation-id" = None.
Proof. intros (_ & -> & _). unfold batch_headers. now simplify_map_eq. Qed.




(** C8 fails on batches: evaluated on a connected producer with a correlation
    identifier among the options, the messages of [publishBatch] carry
    [event-type], [event-version] and [source-service] but no
    [correlation-id] header, while the message of [publish] carries the
    four. *)
Theorem publishBatch_drops_correlation_header :
  List.map (fun r => List.map (fun m => List.map (fun name => headers m !! name)
                                                 envelope_headers)
                              (messages r))
    (sent (kafka_client (world (snd
       (publishBatch "banking.users.events" Sample.two_users (Some Sample.tracing)
          Sample.connected_producer)))))
  = [[[Some "UserCreated"; Some "1.0"; Some "test-service"; None];
      [Some "UserUpdated"; Some "1.0"; Some "test-service"; None]]]
  /\
  List.map (fun r => List.map (fun m => List.map (fun name => headers m !! name)
                                                 envelope_headers)
                              (messages r))
    (sent (kafka_client (world (snd
       (publish "banking.users.events" UserEvents.CREATED (JObj [("id", JStr "1")]) "1"
          (Some Sample.tracing) Sample.connected_producer)))))
  = [[[Some "UserCreated"; Some "1.0"; Some "test-service"; Some "req-7"]]].
Proof. split; vm_compute; reflexivity. Qed.

(** *** Reachable states of a producer *)

Lemma publish_keeps_fields st topic eventType payload key options :
  producer (this (snd (publish topic eventType payload key options st)))
    = producer (this st)
  /\ isConnected (this (snd (publish topic eventType payload key options st)))
      = isConnected (this st).
Proof.
  unfold publish. cbv [bind read].
  destruct (negb (bool_decide (is_Some (producer (this st))))
            || negb (isConnected (this st))).
  - split; reflexivity.
  - cbv [on_sys]. rewrite createBaseEvent_eq.
    cbv [try_catch completes with_correlationId].
    cbn [eventId Events.eventType timestamp version source causationId].
    rewrite stringify_message.
    destruct (JSON_stringify payload) as [text|e]; [|split; reflexivity].
    cbv [on_client producer_send request log update ret throw].
    cbn [world kafka_client this sys eventVersion serviceName].
    match goal with
    | |- context [match answer ?a ?b ?c with _ => _ end] => destruct (answer a b c)
    end; split; reflexivity.
Qed.

Lemma publishBatch_keeps_fields st topic messages options :
  producer (this (snd (publishBatch topic messages options st))) = producer (this st)
  /\ isConnected (this (snd (publishBatch topic messages options st)))
      = isConnected (this st).
Proof.
  unfold publishBatch. cbv [bind read].
  destruct (negb (bool_decide (is_Some (producer (this st))))
            || negb (isConnected (this st))).
  - split; reflexivity.
  - cbv [try_catch].
    destruct (mapM_kafkaMessage options messages st) as (c & st1 & Hmap & Hthis & _).
    rewrite Hmap. destruct c as [ms|e].
    + cbv [on_client producer_send request log update ret throw].
      match goal with
      | |- context [match answer ?a ?b ?c with _ => _ end] => destruct (answer a b c)
      end; cbn [snd this producer isConnected]; rewrite Hthis; split; reflexivity.
    + cbv [log update throw]. cbn [snd this producer isConnected]. rewrite Hthis.
      split; reflexivity.
Qed.

Lemma call_keeps_producer op (st : St BaseProducer) :
  (isConnected (this st) = true -> is_Some (producer (this st))) ->
  isConnected (this (snd (call op st))) = true ->
  is_Some (producer (this (snd (call op st)))).
Proof.
  intros Hinv. destruct op as [| |topic eventType payload key options
                                |topic messages options].
  - (* connect *)
    unfold call, connect. cbv [bind read].
    destruct (isConnected (this st)) eqn:Hc; [intros _; now apply Hinv|].
    cbv [try_catch on_client local producer_connect request bind log update ret throw].
    cbn [this world kafka_client calls answer record_call].
    match goal with
    | |- context [match answer ?a ?b ?c with _ => _ end] => destruct (answer a b c)
    end; cbn; intros _; eauto.
  - (* disconnect *)
    unfold call, disconnect. cbv [bind read].
    destruct (bool_decide (is_Some (producer (this st))) && isConnected (this st)) eqn:E;
      [|exact Hinv].
    cbv [on_client producer_disconnect request bind log update ret].
    match goal with
    | |- context [match answer ?a ?b ?c with _ => _ end] => destruct (answer a b c)
    end; cbn; [discriminate|exact Hinv].
  - (* publish *)
    assert (E : snd (call (OpPublish topic eventType payload key options) st)
                = snd (publish topic eventType payload key options st)).
    { unfold call, bind, ret.
      destruct (publish topic eventType payload key options st) as [[r|e] s]; reflexivity. }
    rewrite E.
    destruct (publish_keeps_fields st topic eventType payload key options) as [-> ->].
    exact Hinv.
  - (* publishBatch *)
    assert (E : snd (call (OpPublishBatch topic messages options) st)
                = snd (publishBatch topic messages options st)).
    { unfold call, bind, ret.
      destruct (publishBatch topic messages options st) as [[r|e] s]; reflexivity. }
    rewrite E.
    destruct (publishBatch_keeps_fields st topic messages options) as [-> ->].
    exact Hinv.
Qed.

(** A producer whose [isConnected] flag is set holds a transport producer, in
    every state reached from the constructor through the public interface. *)
Lemma connected_has_producer config logger (w : World) (ops : list Op) :
  let st := after ops {| this := new_BaseProducer config logger; world := w |} in
  isConnected (this st) = true -> is_Some (producer (this st)).
Proof.
  cbv zeta. unfold after.
  assert (H0 : isConnected (this {| this := new_BaseProducer config logger; world := w |})
               = true ->
               is_Some (producer (this {| this := new_BaseProducer config logger;
                                          world := w |})))
    by (cbn; discriminate).
  revert H0. generalize {| this := new_BaseProducer config logger; world := w |}.
  induction ops as [|op ops IH]; intros st Hinv; [exact Hinv|].
  cbn [fold_left]. apply IH. now apply call_keeps_producer.
Qed.

End Publisher.

(** ** The subscriber *)

Section Subscriber.

Import Consumer.

(** *** The message loop *)

(** C1: when a message is delivered, the [eachMessage] callback runs the
    registered handler on it and waits for its outcome.  If the handler
    resolves, the callback returns normally and the transport advances the
    committed position by this message; if the handler rejects with an error,
    the callback throws that same error, and the transport records no commit:
    the client is as it was before the delivery. *)
Theorem eachMessage_propagates (st : St BaseConsumer) payload h :
  handler (this st) = Some h ->
  let y := tick (sys (world st)) in
  (forall y', h payload y = (Normal tt, y') ->
     exists st1 st2,
       eachMessage payload st = (Normal tt, st1)
       /\ sys (world st1) = tick y'
       /\ kafka_client (world st1) = kafka_client (world st)
       /\ deliver payload st = (Normal tt, st2)
       /\ committed (kafka_client (world st2)) =
            (committed (kafka_client (world st))
               ++ [(in_topic payload, in_partition payload, in_offset (message payload))])%list)
  /\ (forall e y', h payload y = (Throw e, y') ->
        exists st1,
          eachMessage payload st = (Throw e, st1)
          /\ sys (world st1) = y'
          /\ deliver payload st = (Throw e, st1)
          /\ kafka_client (world st1) = kafka_client (world st)).
Proof.
  intros Hh y. split.
  - intros y' Hrun.
    assert (E : exists st1, eachMessage payload st = (Normal tt, st1)
                  /\ sys (world st1) = tick y'
                  /\ kafka_client (world st1) = kafka_client (world st)).
    { unfold eachMessage. cbv [bind on_sys Date_now try_catch read].
      cbn [this world sys]. rewrite Hh. cbn [this world sys kafka_client].
      fold y. rewrite Hrun.
      eexists. split; [reflexivity|]. split; reflexivity. }
    destruct E as (st1 & He & Hs & Hk). exists st1.
    unfold deliver. rewrite (bind_normal _ _ _ _ _ He).
    eexists. split; [exact He|]. split; [exact Hs|]. split; [exact Hk|].
    split; [reflexivity|]. cbn [world kafka_client committed]. now rewrite Hk.
  - intros e y' Hrun.
    assert (E : exists st1, eachMessage payload st = (Throw e, st1)
                  /\ sys (world st1) = y'
                  /\ kafka_client (world st1) = kafka_client (world st)).
    { unfold eachMessage. cbv [bind on_sys Date_now try_catch read].
      cbn [this world sys]. rewrite Hh. cbn [this world sys kafka_client].
      fold y. rewrite Hrun.
      eexists. split; [reflexivity|]. split; reflexivity. }
    destruct E as (st1 & He & Hs & Hk). exists st1.
    split; [exact He|]. split; [exact Hs|]. split; [|exact Hk].
    unfold deliver. now rewrite (bind_throw _ _ _ _ _ He).
Qed.

Lemma eachMessage_propagates_witness :
  (exists st1 st2,
     eachMessage (Sample.message_at "12") Sample.running_consumer = (Normal tt, st1)
     /\ deliver (Sample.message_at "12") Sample.running_consumer = (Normal tt, st2)
     /\ committed (kafka_client (world st2)) = [("test-topic", 0, "12")])
  /\ (exists st1,
        deliver (Sample.message_at "13") Sample.running_consumer
          = (Throw (Error "Processing failed"), st1)
        /\ committed (kafka_client (world st1)) = []).
Proof.
  assert (Hh : handler (this Sample.running_consumer) = Some Sample.picky)
    by (vm_compute; reflexivity).
  split.
  - destruct (proj1 (eachMessage_propagates Sample.running_consumer
                       (Sample.message_at "12") Sample.picky Hh)
                    (tick (sys (world Sample.running_consumer))) eq_refl)
      as (st1 & st2 & H1 & _ & _ & H4 & H5).
    exists st1, st2. split; [exact H1|]. split; [exact H4|]. exact H5.
  - destruct (proj2 (eachMessage_propagates Sample.running_consumer
                       (Sample.message_at "13") Sample.picky Hh)
                    (Error "Processing failed")
                    (tick (sys (world Sample.running_consumer))) eq_refl)
      as (st1 & _ & _ & H3 & H4).
    exists st1. split; [exact H3|]. now rewrite H4.
Defined.

(** *** Pause and resume *)

Lemma topics_of_partitions (ts : list string) :
  List.map tp_topic (List.map (fun topic => {| tp_topic := topic |}) ts) = ts.
Proof. induction ts as [|t ts IH]; [reflexivity|]. cbn. now rewrite IH. Qed.

Lemma pause_running (st : St BaseConsumer) c :
  consumer (this st) = Some c ->
  isRunning (this st) = true ->
  exists o',
    pause st =
      (Normal tt,
       {| this := o';
          world :=
            {| sys := sys (world st);
               kafka_client :=
                 set_paused
                   (topics (this st) ++ paused (kafka_client (world st)))
                   (record_call
                      (Pause (List.map (fun topic => {| tp_topic := topic |})
                                (topics (this st))))
                      (kafka_client (world st))) |} |})
    /\ consumer o' = consumer (this st)
    /\ isRunning o' = true
    /\ isConnected o' = isConnected (this st)
    /\ topics o' = topics (this st)
    /\ handler o' = handler (this st).
Proof.
  intros Hc Hr. unfold pause. cbv [bind read]. rewrite Hc, Hr.
  cbv [bool_decide decide_rel is_Some_dec andb on_client consumer_pause local modify
       bind log update].
  cbn [this world sys kafka_client paused record_call].
  rewrite topics_of_partitions.
  eexists. split; [reflexivity|]. cbn. now rewrite Hr.
Qed.

Lemma resume_running (st : St BaseConsumer) c :
  consumer (this st) = Some c ->
  isRunning (this st) = true ->
  exists o',
    resume st =
      (Normal tt,
       {| this := o';
          world :=
            {| sys := sys (world st);
               kafka_client :=
                 set_paused
                   (List.filter (fun t => bool_decide (t ∉ topics (this st)))
                      (paused (kafka_client (world st))))
                   (record_call
                      (Resume (List.map (fun topic => {| tp_topic := topic |})
                                 (topics (this st))))
                      (kafka_client (world st))) |} |})
    /\ consumer o' = consumer (this st)
    /\ isRunning o' = true
    /\ isConnected o' = isConnected (this st)
    /\ topics o' = topics (this st)
    /\ handler o' = handler (this st).
Proof.
  intros Hc Hr. unfold resume. cbv [bind read]. rewrite Hc, Hr.
  cbv [bool_decide decide_rel is_Some_dec andb on_client consumer_resume local modify
       bind log update].
  cbn [this world sys kafka_client paused record_call].
  rewrite topics_of_partitions.
  eexists. split; [reflexivity|]. cbn. now rewrite Hr.
Qed.

Lemma pause_not_running (st : St BaseConsumer) :
  isRunning (this st) = false -> pause st = (Normal tt, st).
Proof.
  intros Hr. unfold pause. cbv [bind read]. rewrite Hr, andb_false_r. reflexivity.
Qed.

Lemma resume_not_running (st : St BaseConsumer) :
  isRunning (this st) = false -> resume st = (Normal tt, st).
Proof.
  intros Hr. unfold resume. cbv [bind read]. rewrite Hr, andb_false_r. reflexivity.
Qed.

Lemma paused_after_pause (k : Client) (ts p : list string) :
  forallb (is_paused (set_paused (ts ++ p) k)) ts = true.
Proof.
  apply forallb_forall. intros t Hin. unfold is_paused, set_paused. cbn [paused].
  apply bool_decide_eq_true. apply elem_of_app. left. now apply list_elem_of_In.
Qed.

Lemma flowing_after_resume (k : Client) (ts p : list string) :
  forallb (fun t => negb (is_paused
             (set_paused (List.filter (fun t' => bool_decide (t' ∉ ts)) p) k) t)) ts = true.
Proof.
  apply forallb_forall. intros t Hin. unfold is_paused, set_paused. cbn [paused].
  apply negb_true_iff, bool_decide_eq_false. intros Hmem.
  apply list_elem_of_In, filter_In in Hmem. destruct Hmem as [_ Hout].
  apply bool_decide_eq_true in Hout. apply Hout. now apply list_elem_of_In.
Qed.

(** C4: on a running subscriber [pause()] asks the client to pause the
    topics of the subscriber, after which delivery is paused for all of them,
    and [resume()] asks the client to resume them, after which delivery flows
    again for all of them; the subscriber keeps running throughout.  On a
    subscriber that is not running, [pause()] and [resume()] return normally
    and leave the whole state as it was, the calls received by the client
    included. *)
Theorem pause_resume (st : St BaseConsumer) :
  (forall c,
     consumer (this st) = Some c ->
     isRunning (this st) = true ->
     exists st1 st2,
       pause st = (Normal tt, st1)
       /\ is_paused_state st1 = true
       /\ calls (kafka_client (world st1)) =
            (calls (kafka_client (world st))
               ++ [Pause (List.map (fun topic => {| tp_topic := topic |})
                            (topics (this st)))])%list
       /\ resume st1 = (Normal tt, st2)
       /\ is_running_state st2 = true
       /\ calls (kafka_client (world st2)) =
            (calls (kafka_client (world st1))
               ++ [Resume (List.map (fun topic => {| tp_topic := topic |})
                             (topics (this st)))])%list)
  /\ (isRunning (this st) = false ->
        pause st = (Normal tt, st) /\ resume st = (Normal tt, st)).
Proof.
  split.
  - intros c Hc Hr.
    destruct (pause_running st c Hc Hr) as (o1 & Hp & Hc1 & Hr1 & _ & Ht1 & _).
    match type of Hp with
    | _ = (_, ?s) =>
        destruct (resume_running s c) as (o2 & Hres & _ & Hr2 & _ & Ht2 & _)
    end.
    { cbn [this]. now rewrite Hc1. }
    { exact Hr1. }
    cbn [this world sys kafka_client] in Hres, Ht2. rewrite Ht1 in Hres, Ht2.
    eexists _, _. split; [exact Hp|].
    split.
    { unfold is_paused_state. cbn [this world kafka_client].
      rewrite Hr1, Ht1. apply paused_after_pause. }
    split; [reflexivity|]. split; [exact Hres|]. split; [|reflexivity].
    unfold is_running_state. cbn [this world kafka_client].
    rewrite Hr2, Ht2. cbn [andb]. apply flowing_after_resume.
  - intros Hr. split; [now apply pause_not_running|now apply resume_not_running].
Qed.

Lemma pause_resume_witness :
  (exists st1 st2,
     pause Sample.running_consumer = (Normal tt, st1)
     /\ is_paused_state st1 = true
     /\ resume st1 = (Normal tt, st2)
     /\ is_running_state st2 = true)
  /\ pause Sample.new_consumer = (Normal tt, Sample.new_consumer)
  /\ resume Sample.new_consumer = (Normal tt, Sample.new_consumer).
Proof.
  split.
  - destruct (proj1 (pause_resume Sample.running_consumer)
                {| groupId := "test-group"; sessionTimeout := 30000;
                   heartbeatInterval := 3000 |})
      as (st1 & st2 & H1 & H2 & _ & H4 & H5 & _);
      [vm_compute; reflexivity ..|].
    exists st1, st2. repeat split; assumption.
  - apply (proj2 (pause_resume Sample.new_consumer)). reflexivity.
Defined.

(** *** Starting *)

Lemma start_without_handler_eq (st : St BaseConsumer) c :
  consumer (this st) = Some c ->
  handler (this st) = None ->
  start st = (Throw (Error "Message handler not set"), st).
Proof.
  intros Hc Hh. unfold start. cbv [bind read]. rewrite Hc.
  cbv [bool_decide decide_rel is_Some_dec negb]. rewrite Hh. reflexivity.
Qed.

Lemma no_subscribe_record c (k : Client) :
  is_subscribe c = false ->
  existsb is_subscribe (calls k) = false ->
  existsb is_subscribe (calls (record_call c k)) = false.
Proof.
  intros Hc Hk. unfold record_call. cbn [calls].
  rewrite existsb_app, Hk. cbn. now rewrite Hc.
Qed.

(** A call other than [setHandler] keeps the consumer and the handler of the
    object, and, while no handler is set, asks for no subscription. *)
Lemma call_keeps_handler op (st : St BaseConsumer) :
  is_setHandler op = false ->
  consumer (this (snd (call op st))) = consumer (this st)
  /\ handler (this (snd (call op st))) = handler (this st)
  /\ (handler (this st) = None ->
       existsb is_subscribe (calls (kafka_client (world st))) = false ->
       existsb is_subscribe (calls (kafka_client (world (snd (call op st))))) = false).
Proof.
  intros Hop. destruct st as [[kc c conn run h ts lg] [y k]].
  destruct op; try discriminate Hop;
    cbv [call connect start stop disconnect pause resume bind read try_catch
         on_client consumer_connect consumer_subscribe consumer_run consumer_stop
         consumer_disconnect consumer_pause consumer_resume request local modify
         log update ret throw set_isConnected set_isRunning];
    destruct c as [c|], h as [h|], conn, run; cbn;
    repeat match goal with
           | |- context [match answer ?a ?b ?c with _ => _ end] =>
               destruct (answer a b c); cbn
           end;
    (split; [reflexivity|]); (split; [reflexivity|]);
    intros Hnone Hk; try discriminate Hnone;
    rewrite ?existsb_app, ?Hk; reflexivity.
Qed.

Lemma after_keeps_handler ops :
  forall st : St BaseConsumer,
  Forall (fun op => is_setHandler op = false) ops ->
  consumer (this (after ops st)) = consumer (this st)
  /\ handler (this (after ops st)) = handler (this st)
  /\ (handler (this st) = None ->
       existsb is_subscribe (calls (kafka_client (world st))) = false ->
       existsb is_subscribe (calls (kafka_client (world (after ops st)))) = false).
Proof.
  induction ops as [|op ops IH]; intros st Hall.
  - cbn. auto.
  - inversion Hall as [|? ? Hop Hrest]; subst.
    destruct (call_keeps_handler op st Hop) as (Hc & Hh & Hs).
    destruct (IH (snd (call op st)) Hrest) as (Hc' & Hh' & Hs').
    unfold after in *. cbn [fold_left].
    rewrite Hc', Hh', Hc, Hh. repeat split.
    intros Hnone Hk. apply Hs'; [now rewrite Hh|now apply Hs].
Qed.

(** The consumer that the constructor obtains is never dropped: every state
    reached through the public interface holds it. *)
Lemma consumer_initialized config logger (w : World) (ops : list Op) :
  is_Some (consumer (this (after ops (new_BaseConsumer config logger w)))).
Proof.
  assert (H : forall ops (st : St BaseConsumer),
             consumer (this (after ops st)) = consumer (this st)).
  { clear. induction ops as [|op rest IH]; intros st; [reflexivity|].
    unfold after in *. cbn [fold_left]. rewrite IH.
    destruct op; try (apply call_keeps_handler; reflexivity). reflexivity. }
  rewrite H. cbn. eauto.
Qed.

(** C6: on a subscriber built by its constructor and driven by any history
    of calls that has no [setHandler], [start()] throws the error
    [Message handler not set] and leaves the whole state as it was; no
    [subscribe] reaches the client, neither from this [start()] nor from the
    history before it. *)
Theorem start_without_handler config logger (w : World) (ops : list Op) :
  Forall (fun op => is_setHandler op = false) ops ->
  let st := after ops (new_BaseConsumer config logger w) in
  start st = (Throw (Error "Message handler not set"), st)
  /\ (existsb is_subscribe (calls (kafka_client w)) = false ->
      existsb is_subscribe (calls (kafka_client (world (snd (start st))))) = false).
Proof.
  intros Hops st.
  destruct (after_keeps_handler ops (new_BaseConsumer config logger w) Hops)
    as (Hc & Hh & Hs).
  fold st in Hc, Hh, Hs. cbn [new_BaseConsumer this consumer handler] in Hc, Hh.
  rewrite (start_without_handler_eq st _ Hc Hh). split; [reflexivity|].
  intros Hw. cbn [snd]. apply Hs; [reflexivity|].
  cbn [new_BaseConsumer world kafka_client]. now apply no_subscribe_record.
Qed.

Lemma start_without_handler_witness :
  let st := after [OpConnect; OpStart; OpPause; OpStop]
              (new_BaseConsumer Sample.consumer_config None Sample.the_world) in
  start st = (Throw (Error "Message handler not set"), st)
  /\ existsb is_subscribe (calls (kafka_client (world (snd (start st))))) = false.
Proof.
  intros st.
  destruct (start_without_handler Sample.consumer_config None Sample.the_world
              [OpConnect; OpStart; OpPause; OpStop]) as [H1 H2].
  - repeat constructor.
  - split; [exact H1|]. apply H2. reflexivity.
Defined.

End Subscriber.

(** * Further properties of the publisher *)

Section PublisherLifecycle.

Import Producer.

Lemma publish_disconnected_eq st topic eventType payload key options :
  isConnected (this st) = false ->
  exists o',
    publish topic eventType payload key options st
      = (Normal None, {| this := o'; world := world st |})
    /\ producer o' = producer (this st)
    /\ isConnected o' = false.
Proof.
  intros Hc. unfold publish. cbv [bind read]. rewrite Hc, orb_true_r.
  eexists. split; [reflexivity|]. cbn. now rewrite Hc.
Qed.

Lemma sent_record_other c (k : Client) :
  (forall r, c <> Send r) -> sent (record_call c k) = sent k.
Proof.
  intros Hc. unfold sent, record_call. cbn [calls]. rewrite flat_map_app. cbn.
  destruct c; try (now rewrite app_nil_r). now destruct (Hc record).
Qed.

(** X1: [connect()] on a producer that is not connected, when the broker
    accepts the connection, asks the client for a new producer with
    idempotence enabled, connects it and only then sets the flag; a producer
    kept from an earlier connection is replaced. *)
Theorem connect_opens_idempotent_producer (st : St BaseProducer) metadata :
  let options := {| createPartitioner := DefaultPartitioner;
                    allowAutoTopicCreation := true;
                    transactionTimeout := 30000;
                    idempotent := true |} in
  let k := kafka_client (world st) in
  isConnected (this st) = false ->
  answer k (calls k ++ [NewProducer options]) ProducerConnect = Ack metadata ->
  exists st',
    connect st = (Normal tt, st')
    /\ isConnected (this st') = true
    /\ producer (this st') = Some options
    /\ calls (kafka_client (world st')) =
         (calls k ++ [NewProducer options; ProducerConnect])%list
    /\ sys (world st') = sys (world st).
Proof.
  intros options k Hc Hans. unfold connect. cbv [bind read]. rewrite Hc.
  cbv [try_catch on_client local producer_connect request bind log update ret throw].
  cbn [this world kafka_client calls answer record_call sys].
  fold options k. rewrite Hans. eexists. split; [reflexivity|].
  cbn. rewrite <- app_assoc. repeat split.
Qed.

Lemma connect_opens_idempotent_producer_witness :
  exists st',
    connect Sample.new_producer = (Normal tt, st')
    /\ isConnected (this st') = true
    /\ List.length (calls (kafka_client (world st'))) = 2%nat.
Proof.
  destruct (connect_opens_idempotent_producer Sample.new_producer Sample.delivered)
    as (st' & H1 & H2 & _ & H4 & _); [reflexivity ..|].
  exists st'. split; [exact H1|]. split; [exact H2|]. now rewrite H4.
Defined.

(** X2: when the broker refuses the connection, [connect()] logs the failure
    and throws the broker's error; the producer stays flagged as not
    connected, so that a [publish] that follows still returns [null] and
    sends nothing. *)
Theorem connect_failure_leaves_unavailable (st : St BaseProducer) e :
  let options := {| createPartitioner := DefaultPartitioner;
                    allowAutoTopicCreation := true;
                    transactionTimeout := 30000;
                    idempotent := true |} in
  let k := kafka_client (world st) in
  isConnected (this st) = false ->
  answer k (calls k ++ [NewProducer options]) ProducerConnect = Nack e ->
  exists st',
    connect st = (Throw e, st')
    /\ isConnected (this st') = false
    /\ last (logger (this st')) = Some {| level := LError;
                                          text := "Failed to connect Kafka producer";
                                          meta := [("error", json_of_error e)] |}
    /\ forall topic eventType payload key opts,
         exists st'',
           publish topic eventType payload key opts st' = (Normal None, st'')
           /\ sent (kafka_client (world st'')) = sent (kafka_client (world st)).
Proof.
  intros options k Hc Hans. unfold connect. cbv [bind read]. rewrite Hc.
  cbv [try_catch on_client local producer_connect request bind log update ret throw].
  cbn [this world kafka_client calls answer record_call sys].
  fold options k. rewrite Hans. eexists. split; [reflexivity|].
  cbn [this isConnected logger set_producer]. split; [exact Hc|].
  split; [apply last_snoc|].
  intros topic eventType payload key opts.
  match goal with
  | |- context [publish _ _ _ _ _ ?s] =>
      destruct (publish_disconnected_eq s topic eventType payload key opts)
        as (o' & Hp & _); [exact Hc|]
  end.
  eexists. split; [exact Hp|]. unfold sent. cbn.
  rewrite !flat_map_app. cbn. now rewrite !app_nil_r.
Qed.

Lemma connect_failure_leaves_unavailable_witness :
  exists st' st'',
    connect (Sample2.producer_on Sample2.refusing)
      = (Throw (Error "Connection refused"), st')
    /\ publish "test-topic" UserEvents.CREATED (JObj []) "k" None st' = (Normal None, st'')
    /\ sent (kafka_client (world st'')) = [].
Proof.
  destruct (connect_failure_leaves_unavailable (Sample2.producer_on Sample2.refusing)
              (Error "Connection refused"))
    as (st' & H1 & _ & _ & H4); [reflexivity ..|].
  destruct (H4 "test-topic" UserEvents.CREATED (JObj []) "k" None) as (st'' & H5 & H6).
  exists st', st''. split; [exact H1|]. split; [exact H5|]. rewrite H6. reflexivity.
Defined.

End PublisherLifecycle.

Section PublisherDisconnect.

Import Producer.

(** X3: [disconnect()] on a connected producer, when the client completes
    the disconnection, clears the flag and keeps the producer object; a
    [publish] that follows returns [null] and sends nothing. *)
Theorem disconnect_closes (st : St BaseProducer) p metadata :
  let k := kafka_client (world st) in
  producer (this st) = Some p ->
  isConnected (this st) = true ->
  answer k (calls k) ProducerDisconnect = Ack metadata ->
  exists st',
    disconnect st = (Normal tt, st')
    /\ isConnected (this st') = false
    /\ producer (this st') = Some p
    /\ calls (kafka_client (world st')) = (calls k ++ [ProducerDisconnect])%list
    /\ forall topic eventType payload key opts,
         exists st'',
           publish topic eventType payload key opts st' = (Normal None, st'')
           /\ sent (kafka_client (world st'')) = sent k.
Proof.
  intros k Hp Hc Hans. unfold disconnect. cbv [bind read]. rewrite Hp, Hc.
  cbv [bool_decide decide_rel is_Some_dec andb on_client producer_disconnect request
       bind log update ret].
  fold k. rewrite Hans. eexists. split; [reflexivity|].
  cbn [this world kafka_client isConnected producer set_isConnected record_call calls].
  repeat split; [exact Hp|].
  intros topic eventType payload key opts.
  match goal with
  | |- context [publish _ _ _ _ _ ?s] =>
      destruct (publish_disconnected_eq s topic eventType payload key opts)
        as (o' & Hpub & _); [reflexivity|]
  end.
  eexists. split; [exact Hpub|]. unfold sent. cbn.
  rewrite !flat_map_app. cbn. now rewrite !app_nil_r.
Qed.

Lemma disconnect_closes_witness :
  exists st' st'',
    disconnect Sample.connected_producer = (Normal tt, st')
    /\ isConnected (this st') = false
    /\ publish "test-topic" UserEvents.CREATED (JObj []) "k" None st' = (Normal None, st'')
    /\ sent (kafka_client (world st'')) = [].
Proof.
  destruct (disconnect_closes Sample.connected_producer
              {| createPartitioner := DefaultPartitioner; allowAutoTopicCreation := true;
                 transactionTimeout := 30000; idempotent := true |} Sample.delivered)
    as (st' & H1 & H2 & _ & _ & H5); [reflexivity ..|].
  destruct (H5 "test-topic" UserEvents.CREATED (JObj []) "k" None) as (st'' & H6 & H7).
  exists st', st''. split; [exact H1|]. split; [exact H2|]. split; [exact H6|].
  exact H7.
Defined.

(** X4: when the client fails to disconnect, [disconnect()] throws the
    client's error and leaves the object untouched: the producer stays
    flagged as connected and nothing is logged. *)
Theorem disconnect_failure_keeps_connected (st : St BaseProducer) p e :
  let k := kafka_client (world st) in
  producer (this st) = Some p ->
  isConnected (this st) = true ->
  answer k (calls k) ProducerDisconnect = Nack e ->
  exists st',
    disconnect st = (Throw e, st')
    /\ this st' = this st
    /\ calls (kafka_client (world st')) = (calls k ++ [ProducerDisconnect])%list.
Proof.
  intros k Hp Hc Hans. unfold disconnect. cbv [bind read]. rewrite Hp, Hc.
  cbv [bool_decide decide_rel is_Some_dec andb on_client producer_disconnect request
       bind log update ret].
  fold k. rewrite Hans. eexists. split; [reflexivity|]. split; reflexivity.
Qed.

Lemma disconnect_failure_keeps_connected_witness :
  exists st',
    disconnect
      {| this := this Sample.connected_producer;
         world := Sample2.world_of (fun _ _ => Nack (Error "Broker gone")) |}
      = (Throw (Error "Broker gone"), st')
    /\ isConnected (this st') = true.
Proof.
  destruct (disconnect_failure_keeps_connected
              {| this := this Sample.connected_producer;
                 world := Sample2.world_of (fun _ _ => Nack (Error "Broker gone")) |}
              {| createPartitioner := DefaultPartitioner; allowAutoTopicCreation := true;
                 transactionTimeout := 30000; idempotent := true |}
              (Error "Broker gone"))
    as (st' & H1 & H2 & _); [reflexivity ..|].
  exists st'. split; [exact H1|]. rewrite H2. reflexivity.
Defined.

(** X5: [disconnect()] on a producer that holds no producer object or is
    not flagged as connected returns at once and changes nothing; the client
    receives no call. *)
Theorem disconnect_when_disconnected (st : St BaseProducer) :
  producer (this st) = None \/ isConnected (this st) = false ->
  disconnect st = (Normal tt, st).
Proof.
  intros H. unfold disconnect. cbv [bind read].
  destruct H as [-> | ->]; [reflexivity|]. now rewrite andb_false_r.
Qed.

Lemma disconnect_when_disconnected_witness :
  disconnect Sample.new_producer = (Normal tt, Sample.new_producer).
Proof. apply disconnect_when_disconnected. right. reflexivity. Defined.

End PublisherDisconnect.

Section PublisherOutcome.

Import Producer.

Lemma sent_record_send r (k : Client) : sent (record_call (Send r) k) = (sent k ++ [r])%list.
Proof. unfold sent, record_call. cbn [calls]. now rewrite flat_map_app. Qed.

(** X6: the outcome of [publish] on a connected producer.  For a payload
    that [JSON.stringify] rejects, the error of [JSON.stringify] is thrown and
    the transport receives nothing.  Otherwise the outcome is the broker's
    answer to the one record sent: the delivery metadata, returned as they
    are, or the broker's error, thrown as it is; the record is handed over
    once in either case (no retry of its own).  A failed call leaves the
    producer flagged as connected. *)
Theorem publish_outcome_follows_broker st topic eventType payload key options p :
  let k := kafka_client (world st) in
  producer (this st) = Some p ->
  isConnected (this st) = true ->
  exists c st',
    publish topic eventType payload key options st = (c, st')
    /\ isConnected (this st') = true
    /\ producer (this st') = Some p
    /\ match JSON_stringify payload with
       | Throw e => c = Throw e /\ sent (kafka_client (world st')) = sent k
       | Normal _ =>
           exists r,
             sent (kafka_client (world st')) = (sent k ++ [r])%list
             /\ c = match answer k (calls k) (Send r) with
                    | Ack metadata => Normal (Some metadata)
                    | Nack e => Throw e
                    end
       end.
Proof.
  intros k Hp Hc.
  destruct (publish_keeps_fields st topic eventType payload key options) as [Hp' Hc'].
  destruct (JSON_stringify payload) as [text|e] eqn:Ht.
  - destruct (publish_connected st topic eventType payload key options p text Hp Hc Ht)
      as (c & st' & Hpub & Hclient & Hres).
    rewrite Hpub in Hp', Hc'. cbn [snd] in Hp', Hc'.
    exists c, st'. split; [exact Hpub|]. split; [now rewrite Hc'|].
    split; [now rewrite Hp'|]. eexists. rewrite Hclient.
    split; [apply sent_record_send|exact Hres].
  - destruct (publish_rejected st topic eventType payload key options p e Hp Hc Ht)
      as (st' & Hpub & Hclient & _).
    rewrite Hpub in Hp', Hc'. cbn [snd] in Hp', Hc'.
    exists (Throw e), st'. split; [exact Hpub|]. split; [now rewrite Hc'|].
    split; [now rewrite Hp'|]. split; [reflexivity|now rewrite Hclient].
Qed.

Lemma publish_outcome_follows_broker_witness :
  (exists st',
     publish "test-topic" UserEvents.CREATED (JObj [("id", JStr "123")]) "user-123" None
       {| this := this Sample.connected_producer;
          world := Sample2.world_of Sample.rejecting_sends |}
       = (Throw (Error "Kafka error"), st')
     /\ isConnected (this st') = true
     /\ List.length (sent (kafka_client (world st'))) = 1%nat)
  /\ (exists st',
        publish "test-topic" UserEvents.CREATED (JObj [("self", JCircular)]) "user-123"
          None Sample.connected_producer
          = (Throw (TypeError "Converting circular structure to JSON"), st')
        /\ isConnected (this st') = true
        /\ sent (kafka_client (world st')) = []).
Proof.
  split.
  - destruct (publish_outcome_follows_broker
                {| this := this Sample.connected_producer;
                   world := Sample2.world_of Sample.rejecting_sends |}
                "test-topic" UserEvents.CREATED (JObj [("id", JStr "123")]) "user-123" None
                {| createPartitioner := DefaultPartitioner; allowAutoTopicCreation := true;
                   transactionTimeout := 30000; idempotent := true |})
      as (c & st' & H1 & H2 & _ & H4); [reflexivity ..|].
    cbn in H4. destruct H4 as (r & H4 & H5).
    exists st'. rewrite H1, H5. split; [reflexivity|]. split; [exact H2|].
    now rewrite H4.
  - destruct (publish_outcome_follows_broker Sample.connected_producer
                "test-topic" UserEvents.CREATED (JObj [("self", JCircular)]) "user-123" None
                {| createPartitioner := DefaultPartitioner; allowAutoTopicCreation := true;
                   transactionTimeout := 30000; idempotent := true |})
      as (c & st' & H1 & H2 & _ & H4); [reflexivity ..|].
    cbn in H4. destruct H4 as [H4 H5].
    exists st'. rewrite H1, H4. split; [reflexivity|]. split; [exact H2|].
    rewrite H5. reflexivity.
Defined.

(** X7: likewise for [publishBatch] on a connected producer.  When
    [JSON.stringify] rejects the payload of an entry, the error thrown on the
    first such entry is the outcome and the transport receives nothing, not
    even the entries before it.  Otherwise the outcome is the broker's answer
    to the single record that carries the batch.  A failed batch leaves the
    producer flagged as connected. *)
Theorem publishBatch_outcome_follows_broker st topic messages options p :
  let k := kafka_client (world st) in
  producer (this st) = Some p ->
  isConnected (this st) = true ->
  exists c st',
    publishBatch topic messages options st = (c, st')
    /\ isConnected (this st') = true
    /\ producer (this st') = Some p
    /\ ((exists (i : nat) entry e,
           messages !! i = Some entry
           /\ JSON_stringify (msg_payload entry) = Throw e
           /\ (forall (j : nat) earlier,
                 (j < i)%nat -> messages !! j = Some earlier ->
                 exists text, JSON_stringify (msg_payload earlier) = Normal text)
           /\ c = Throw e
           /\ sent (kafka_client (world st')) = sent k)
        \/ (Forall (fun entry => exists text,
                      JSON_stringify (msg_payload entry) = Normal text) messages
            /\ exists r,
                 sent (kafka_client (world st')) = (sent k ++ [r])%list
                 /\ List.length (Kafka.messages r) = List.length messages
                 /\ c = match answer k (calls k) (Send r) with
                        | Ack metadata => Normal (Some metadata)
                        | Nack e => Throw e
                        end)).
Proof.
  intros k Hp Hc.
  destruct (publishBatch_keeps_fields st topic messages options) as [Hp' Hc'].
  destruct (first_rejected messages) as [[n e]|] eqn:Hfirst.
  - destruct (publishBatch_rejected st topic messages options p n e Hp Hc Hfirst)
      as (st' & Hpub & Hclient & _).
    rewrite Hpub in Hp', Hc'. cbn [snd] in Hp', Hc'.
    exists (Throw e), st'. split; [exact Hpub|]. split; [now rewrite Hc'|].
    split; [now rewrite Hp'|]. left.
    destruct (first_rejected_some messages n e Hfirst)
      as (i & entry & _ & Hi & He & Hbefore).
    exists i, entry, e. split; [exact Hi|]. split; [now apply stringify_error_some|].
    split; [|split; [reflexivity|now rewrite Hclient]].
    intros j earlier Hj Hin. apply stringify_error_none. now apply (Hbefore j).
  - destruct (publishBatch_connected st topic messages options p Hp Hc Hfirst)
      as (c & st' & ms & Hpub & Hall & Hclient & Hres & _).
    rewrite Hpub in Hp', Hc'. cbn [snd] in Hp', Hc'.
    exists c, st'. split; [exact Hpub|]. split; [now rewrite Hc'|].
    split; [now rewrite Hp'|]. right. split.
    { clear -Hall. induction Hall as [|entry m messages ms (_ & _ & Hv) _ IH];
        constructor; [|exact IH].
      destruct Hv as (_ & _ & text & Ht & _). now exists text. }
    eexists. rewrite Hclient. split; [apply sent_record_send|]. cbn [Kafka.messages].
    split; [symmetry; eapply Forall2_length; exact Hall|exact Hres].
Qed.

Lemma publishBatch_outcome_follows_broker_witness :
  (exists st',
     publishBatch "test-topic" Sample.two_users None
       {| this := this Sample.connected_producer;
          world := Sample2.world_of Sample.rejecting_sends |}
       = (Throw (Error "Kafka error"), st')
     /\ isConnected (this st') = true)
  /\ (exists st',
        publishBatch "test-topic" Sample.one_bigint None Sample.connected_producer
          = (Throw (TypeError "Do not know how to serialize a BigInt"), st')
        /\ isConnected (this st') = true).
Proof.
  split.
  - destruct (publishBatch_outcome_follows_broker
                {| this := this Sample.connected_producer;
                   world := Sample2.world_of Sample.rejecting_sends |}
                "test-topic" Sample.two_users None
                {| createPartitioner := DefaultPartitioner; allowAutoTopicCreation := true;
                   transactionTimeout := 30000; idempotent := true |})
      as (c & st' & H1 & H2 & _ & H4); [reflexivity ..|].
    exists st'. split; [|exact H2].
    assert (E : fst (publishBatch "test-topic" Sample.two_users None
                       {| this := this Sample.connected_producer;
                          world := Sample2.world_of Sample.rejecting_sends |})
                = Throw (Error "Kafka error")) by (vm_compute; reflexivity).
    rewrite H1 in E. cbn [fst] in E. now rewrite <- E.
  - destruct (publishBatch_outcome_follows_broker Sample.connected_producer
                "test-topic" Sample.one_bigint None
                {| createPartitioner := DefaultPartitioner; allowAutoTopicCreation := true;
                   transactionTimeout := 30000; idempotent := true |})
      as (c & st' & H1 & H2 & _ & H4); [reflexivity ..|].
    exists st'. split; [|exact H2].
    assert (E : fst (publishBatch "test-topic" Sample.one_bigint None
                       Sample.connected_producer)
                = Throw (TypeError "Do not know how to serialize a BigInt"))
      by (vm_compute; reflexivity).
    rewrite H1 in E. cbn [fst] in E. now rewrite <- E.
Defined.

(** X8: [publishBatch] on a producer that is not connected returns [null]
    after one warning; no envelope is built (no identifier drawn, the clock
    not read) and the client receives no call. *)
Theorem publishBatch_unavailable st topic messages options :
  producer (this st) = None \/ isConnected (this st) = false ->
  exists st',
    publishBatch topic messages options st = (Normal None, st')
    /\ world st' = world st
    /\ logger (this st') =
         (logger (this st)
            ++ [{| level := LWarn;
                   text := "Kafka producer not connected, batch logged locally";
                   meta := [] |}])%list
    /\ producer (this st') = producer (this st)
    /\ isConnected (this st') = isConnected (this st).
Proof.
  intros H. unfold publishBatch, bind, read.
  assert (E : negb (bool_decide (is_Some (producer (this st))))
              || negb (isConnected (this st)) = true).
  { destruct H as [-> | ->]; [reflexivity|]. apply orb_true_r. }
  rewrite E. cbn. eexists. repeat split.
Qed.

Lemma publishBatch_unavailable_witness :
  exists st',
    publishBatch "test-topic" Sample.two_users None Sample.new_producer = (Normal None, st')
    /\ world st' = Sample.the_world.
Proof.
  destruct (publishBatch_unavailable Sample.new_producer "test-topic" Sample.two_users None)
    as (st' & H1 & H2 & _); [left; reflexivity|].
  exists st'. split; [exact H1|exact H2].
Defined.

End PublisherOutcome.

Section PublisherHeaders.

Import Producer.

(** X9: the headers of the message that [publish] sends, name by name: a
    header of the caller is forwarded with the caller's value, whatever its
    name; otherwise [correlation-id] holds the correlation identifier of the
    options or the empty string, [source-service] the service name,
    [event-version] the event version of the producer and [event-type] the
    event type; no other header is sent.  This holds of the one message sent
    for a payload that [JSON.stringify] accepts; for one it rejects no
    message is sent at all. *)
Theorem publish_header_lookup st topic eventType payload key options p :
  producer (this st) = Some p ->
  isConnected (this st) = true ->
  exists c st',
    publish topic eventType payload key options st = (c, st')
    /\ match JSON_stringify payload with
       | Throw e =>
           c = Throw e
           /\ sent (kafka_client (world st')) = sent (kafka_client (world st))
       | Normal _ =>
           exists m,
             sent (kafka_client (world st')) =
               (sent (kafka_client (world st))
                  ++ [{| topic := topic; compression := GZIP; messages := [m] |}])%list
             /\ forall name,
                  headers m !! name =
                    match headers_of options !! name with
                    | Some v => Some v
                    | None =>
                        if decide ("correlation-id" = name)
                        then Some (default EmptyString (correlationId_of options))
                        else if decide ("source-service" = name)
                             then Some (serviceName (this st))
                        else if decide ("event-version" = name)
                             then Some (eventVersion (this st))
                        else if decide ("event-type" = name) then Some eventType
                        else None
                    end
       end.
Proof.
  intros Hp Hc. destruct (JSON_stringify payload) as [text|e] eqn:Ht.
  - destruct (publish_connected st topic eventType payload key options p text Hp Hc Ht)
      as (c & st' & Hpub & Hclient & _).
    exists c, st'. split; [exact Hpub|]. eexists. rewrite Hclient.
    split; [apply sent_record_send|].
    intros name. cbn [headers]. unfold publish_headers.
    destruct (headers_of options !! name) as [v|] eqn:E.
    + now apply lookup_union_Some_l.
    + rewrite lookup_union_r by exact E.
      rewrite !lookup_insert, lookup_empty. reflexivity.
  - destruct (publish_rejected st topic eventType payload key options p e Hp Hc Ht)
      as (st' & Hpub & Hclient & _).
    exists (Throw e), st'. split; [exact Hpub|]. split; [reflexivity|now rewrite Hclient].
Qed.

Lemma publish_header_lookup_witness :
  exists c st' m,
    publish "banking.users.events" UserEvents.CREATED (JObj [("id", JStr "u1")]) "u1"
      (Some Sample.tracing) Sample.connected_producer = (c, st')
    /\ sent (kafka_client (world st')) =
         [{| topic := "banking.users.events"; compression := GZIP; messages := [m] |}]
    /\ headers m !! "tenant" = Some "acme"
    /\ headers m !! "correlation-id" = Some "req-7"
    /\ headers m !! "event-version" = Some "1.0"
    /\ headers m !! "trace" = None.
Proof.
  destruct (publish_header_lookup Sample.connected_producer "banking.users.events"
              UserEvents.CREATED (JObj [("id", JStr "u1")]) "u1" (Some Sample.tracing)
              {| createPartitioner := DefaultPartitioner; allowAutoTopicCreation := true;
                 transactionTimeout := 30000; idempotent := true |})
    as (c & st' & H1 & H2); [reflexivity ..|].
  cbn in H2. destruct H2 as (m & H2 & H3).
  exists c, st', m. split; [exact H1|]. split; [exact H2|].
  rewrite !H3. repeat split; vm_compute; reflexivity.
Defined.

(** X10: the headers of the messages of a batch depend on the entries and
    on the producer only: message by message they are [event-type],
    [event-version] and [source-service], whatever the options hold; the
    caller's headers are not forwarded by [publishBatch].  This holds of the
    one record sent for a batch all of whose payloads [JSON.stringify]
    accepts; otherwise no record is sent at all. *)
Theorem publishBatch_ignores_caller_headers st topic messages options p :
  producer (this st) = Some p ->
  isConnected (this st) = true ->
  exists c st',
    publishBatch topic messages options st = (c, st')
    /\ ((exists entry e,
           In entry messages
           /\ JSON_stringify (msg_payload entry) = Throw e
           /\ c = Throw e
           /\ sent (kafka_client (world st')) = sent (kafka_client (world st)))
        \/ (Forall (fun entry => exists text,
                      JSON_stringify (msg_payload entry) = Normal text) messages
            /\ exists ms,
                 sent (kafka_client (world st')) =
                   (sent (kafka_client (world st))
                      ++ [{| topic := topic; compression := GZIP; messages := ms |}])%list
                 /\ List.map headers ms =
                      List.map (fun entry =>
                                  <["source-service" := serviceName (this st)]>
                                    (<["event-version" := eventVersion (this st)]>
                                      (<["event-type" := msg_eventType entry]> ∅)))
                               messages)).
Proof.
  intros Hp Hc. destruct (first_rejected messages) as [[n e]|] eqn:Hfirst.
  - destruct (publishBatch_rejected st topic messages options p n e Hp Hc Hfirst)
      as (st' & Hpub & Hclient & _).
    exists (Throw e), st'. split; [exact Hpub|]. left.
    destruct (first_rejected_some messages n e Hfirst) as (i & entry & _ & Hi & He & _).
    exists entry, e. split; [eapply list_elem_of_In, list_elem_of_lookup_2; exact Hi|].
    split; [now apply stringify_error_some|]. split; [reflexivity|now rewrite Hclient].
  - destruct (publishBatch_connected st topic messages options p Hp Hc Hfirst)
      as (c & st' & ms & Hpub & Hall & Hclient & _).
    exists c, st'. split; [exact Hpub|]. right. split.
    { clear -Hall. induction Hall as [|entry m messages ms (_ & _ & Hv) _ IH];
        constructor; [|exact IH].
      destruct Hv as (_ & _ & text & Ht & _). now exists text. }
    exists ms. rewrite Hclient. split; [apply sent_record_send|].
    clear Hpub Hclient Hfirst.
    induction Hall as [|entry m messages ms (_ & Hh & _) _ IH]; [reflexivity|].
    cbn [List.map]. now rewrite Hh, IH.
Qed.

Lemma publishBatch_ignores_caller_headers_witness :
  exists c st' ms,
    publishBatch "test-topic" Sample.two_users (Some Sample.spoofing)
      Sample.connected_producer = (c, st')
    /\ sent (kafka_client (world st')) =
         [{| topic := "test-topic"; compression := GZIP; messages := ms |}]
    /\ List.map (fun m => headers m !! "event-type") ms
       = [Some "UserCreated"; Some "UserUpdated"].
Proof.
  destruct (publishBatch_ignores_caller_headers Sample.connected_producer "test-topic"
              Sample.two_users (Some Sample.spoofing)
              {| createPartitioner := DefaultPartitioner; allowAutoTopicCreation := true;
                 transactionTimeout := 30000; idempotent := true |})
    as (c & st' & H1 & [(entry & e & Hin & He & _)|(_ & ms & H2 & H3)]);
    [reflexivity ..| |].
  - exfalso. cbn in Hin. destruct Hin as [<-|[<-|[]]]; vm_compute in He; discriminate He.
  - exists c, st', ms. split; [exact H1|]. split; [exact H2|].
    rewrite <- (map_map headers (fun h : gmap string string => h !! "event-type")), H3.
    vm_compute. reflexivity.
Defined.

End PublisherHeaders.

Section PublisherBatchIds.

Import Producer.

(** X11: [publishBatch] builds a fresh envelope for each entry it reaches.
    When [JSON.stringify] accepts every payload, the message at position [i]
    is the wire format of an envelope whose [eventId] comes from the [i]-th
    next draw of the identifier generator, and the batch uses up as many
    draws as it has entries, whether or not the send succeeds.  When the
    entry at position [i] is the first whose payload is rejected, [i + 1]
    identifiers have been drawn and nothing is sent. *)
Theorem publishBatch_fresh_ids st topic messages options p :
  let y := sys (world st) in
  producer (this st) = Some p ->
  isConnected (this st) = true ->
  exists c st',
    publishBatch topic messages options st = (c, st')
    /\ rng (sys (world st')) = rng y
    /\ ((exists (i : nat) entry e,
           messages !! i = Some entry
           /\ JSON_stringify (msg_payload entry) = Throw e
           /\ (forall (j : nat) earlier,
                 (j < i)%nat -> messages !! j = Some earlier ->
                 exists text, JSON_stringify (msg_payload earlier) = Normal text)
           /\ c = Throw e
           /\ draws (sys (world st')) = (draws y + S i)%nat
           /\ sent (kafka_client (world st')) = sent (kafka_client (world st)))
        \/ (exists ms,
              sent (kafka_client (world st')) =
                (sent (kafka_client (world st))
                   ++ [{| topic := topic; compression := GZIP; messages := ms |}])%list
              /\ draws (sys (world st')) = (draws y + length messages)%nat
              /\ forall (i : nat) entry,
                   messages !! i = Some entry ->
                   exists m timestamp payload,
                     ms !! i = Some m
                     /\ JSON_stringify (msg_payload entry) = Normal payload
                     /\ value m =
                          Some (wire_format (uuid_of (rng y (draws y + i)%nat))
                                  (msg_eventType entry) timestamp "1.0"
                                  (serviceName (this st)) (correlationId_of options)
                                  payload))).
Proof.
  intros y Hp Hc.
  assert (Hrng : rng (sys (world (snd (publishBatch topic messages options st)))) = rng y).
  { unfold publishBatch. cbv [bind read]. rewrite Hp, Hc.
    cbv [bool_decide negb orb decide_rel is_Some_dec try_catch].
    destruct (mapM_kafkaMessage options messages st)
      as (c0 & st1 & Hmap & _ & _ & Hrng & _).
    rewrite Hmap. destruct c0 as [ms|e].
    - cbv [on_client producer_send request log update ret throw].
      match goal with
      | |- context [match answer ?a ?b ?c with _ => _ end] => destruct (answer a b c)
      end; exact Hrng.
    - exact Hrng. }
  destruct (first_rejected messages) as [[n e]|] eqn:Hfirst.
  - destruct (publishBatch_rejected st topic messages options p n e Hp Hc Hfirst)
      as (st' & Hpub & Hclient & Hdraws & _).
    rewrite Hpub in Hrng. cbn [snd] in Hrng.
    exists (Throw e), st'. split; [exact Hpub|]. split; [exact Hrng|]. left.
    destruct (first_rejected_some messages n e Hfirst)
      as (i & entry & -> & Hi & He & Hbefore).
    exists i, entry, e. split; [exact Hi|]. split; [now apply stringify_error_some|].
    split; [|split; [reflexivity|split; [exact Hdraws|now rewrite Hclient]]].
    intros j earlier Hj Hin. apply stringify_error_none. now apply (Hbefore j).
  - destruct (publishBatch_connected st topic messages options p Hp Hc Hfirst)
      as (c & st' & ms & Hpub & _ & Hclient & _ & Hdraws & Hids).
    rewrite Hpub in Hrng. cbn [snd] in Hrng.
    exists c, st'. split; [exact Hpub|]. split; [exact Hrng|]. right.
    exists ms. rewrite Hclient. split; [apply sent_record_send|].
    split; [exact Hdraws|exact Hids].
Qed.

Lemma publishBatch_fresh_ids_witness :
  (exists c st' ms,
     publishBatch "test-topic" Sample.two_users None Sample.connected_producer = (c, st')
     /\ sent (kafka_client (world st')) =
          [{| topic := "test-topic"; compression := GZIP; messages := ms |}]
     /\ draws (sys (world st')) = 2%nat)
  /\ (exists st',
        publishBatch "test-topic" Sample.one_bigint None Sample.connected_producer
          = (Throw (TypeError "Do not know how to serialize a BigInt"), st')
        /\ draws (sys (world st')) = 2%nat
        /\ sent (kafka_client (world st')) = []).
Proof.
  split.
  - destruct (publishBatch_fresh_ids Sample.connected_producer "test-topic"
                Sample.two_users None
                {| createPartitioner := DefaultPartitioner; allowAutoTopicCreation := true;
                   transactionTimeout := 30000; idempotent := true |})
      as (c & st' & H1 & _ & [(i & entry & e & Hi & He & _)|(ms & H2 & H3 & _)]);
      [reflexivity ..| |].
    + exfalso. destruct i as [|[|i]]; cbn in Hi; [| |discriminate Hi];
        injection Hi as <-; vm_compute in He; discriminate He.
    + exists c, st', ms. split; [exact H1|]. split; [exact H2|exact H3].
  - destruct (publishBatch_fresh_ids Sample.connected_producer "test-topic"
                Sample.one_bigint None
                {| createPartitioner := DefaultPartitioner; allowAutoTopicCreation := true;
                   transactionTimeout := 30000; idempotent := true |})
      as (c & st' & H1 & _ & [(i & entry & e & Hi & He & _ & -> & H3 & H4)
                             |(ms & _ & _ & Hids)]);
      [reflexivity ..| |].
    + destruct i as [|[|[|i]]]; cbn in Hi; try discriminate Hi;
        injection Hi as <-; vm_compute in He; try discriminate He.
      injection He as <-. exists st'. split; [exact H1|]. split; [exact H3|exact H4].
    + exfalso. destruct (Hids 1%nat _ eq_refl) as (_ & _ & text & _ & Ht & _).
      vm_compute in Ht. discriminate Ht.
Defined.

End PublisherBatchIds.

(** * Further properties of the subscriber *)

Section SubscriberLifecycle.

Import Consumer.

(** X13: [connect()] of the subscriber has no guard on the flag: every call
    reaches the client, also on a subscriber already connected.  It sets the
    flag when the client connects; when the client fails it logs the failure,
    throws the client's error and leaves the flag as it was. *)
Theorem consumer_connect_outcome (st : St BaseConsumer) c :
  let k := kafka_client (world st) in
  consumer (this st) = Some c ->
  exists r st',
    connect st = (r, st')
    /\ calls (kafka_client (world st')) = (calls k ++ [ConsumerConnect])%list
    /\ isRunning (this st') = isRunning (this st)
    /\ match answer k (calls k) ConsumerConnect with
       | Ack _ => r = Normal tt /\ isConnected (this st') = true
       | Nack e =>
           r = Throw e
           /\ isConnected (this st') = isConnected (this st)
           /\ last (logger (this st'))
              = Some {| level := LError; text := "Failed to connect Kafka consumer";
                        meta := [("error", json_of_error e)] |}
       end.
Proof.
  intros k Hc. unfold connect. cbv [bind read]. rewrite Hc.
  cbv [bool_decide decide_rel is_Some_dec negb try_catch on_client consumer_connect
       request bind log update ret throw].
  fold k. destruct (answer k (calls k) ConsumerConnect) as [metadata|e];
    eexists _, _; (split; [reflexivity|]); cbn; repeat split.
  apply last_snoc.
Qed.

Lemma consumer_connect_outcome_witness :
  exists st1 st2,
    connect Sample.new_consumer = (Normal tt, st1)
    /\ connect st1 = (Normal tt, st2)
    /\ List.length (calls (kafka_client (world st2))) = 3%nat.
Proof.
  destruct (consumer_connect_outcome Sample.new_consumer
              {| groupId := "test-group"; sessionTimeout := 30000;
                 heartbeatInterval := 3000 |} eq_refl)
    as (r1 & st1 & H1 & H2 & _ & [-> Hc1]).
  assert (Hst1 : st1 = snd (connect Sample.new_consumer)) by now rewrite H1.
  destruct (consumer_connect_outcome st1
              {| groupId := "test-group"; sessionTimeout := 30000;
                 heartbeatInterval := 3000 |})
    as (r2 & st2 & H3 & H4 & _ & H5); [now rewrite Hst1|].
  assert (Hans : answer (kafka_client (world st1)) (calls (kafka_client (world st1)))
                   ConsumerConnect = Ack Sample.delivered) by now rewrite Hst1.
  rewrite Hans in H5. destruct H5 as [-> _].
  exists st1, st2. split; [exact H1|]. split; [exact H3|].
  rewrite H4, H2. reflexivity.
Defined.

(** X14: [start()] with a handler set, when the client accepts the
    subscription and starts its loop, subscribes to the topics of the
    subscriber with [fromBeginning: false], then runs the loop, then sets the
    running flag.  It does so whatever the connected flag says: [start()]
    does not ask for a prior [connect()]. *)
Theorem start_subscribes_then_runs (st : St BaseConsumer) c h m1 m2 :
  let k := kafka_client (world st) in
  let subscribe := Subscribe (topics (this st)) false in
  consumer (this st) = Some c ->
  handler (this st) = Some h ->
  answer k (calls k) subscribe = Ack m1 ->
  answer k (calls k ++ [subscribe]) Run = Ack m2 ->
  exists st',
    start st = (Normal tt, st')
    /\ calls (kafka_client (world st')) = (calls k ++ [subscribe; Run])%list
    /\ isRunning (this st') = true
    /\ isConnected (this st') = isConnected (this st)
    /\ handler (this st') = Some h.
Proof.
  intros k subscribe Hc Hh Hs Hr. unfold start. cbv [bind read]. rewrite Hc.
  cbv [bool_decide decide_rel is_Some_dec negb]. rewrite Hh.
  cbv [try_catch on_client consumer_subscribe consumer_run request bind log update
       ret throw].
  cbn [this world kafka_client sys topics]. fold k subscribe. rewrite Hs.
  cbn [record_call calls answer this world kafka_client sys topics].
  fold k subscribe. rewrite Hr.
  eexists. split; [reflexivity|]. cbn. rewrite <- app_assoc. repeat split.
  exact Hh.
Qed.

Lemma start_subscribes_then_runs_witness :
  exists st',
    start (snd (setHandler Sample.picky Sample.new_consumer)) = (Normal tt, st')
    /\ isRunning (this st') = true
    /\ isConnected (this st') = false
    /\ calls (kafka_client (world st')) =
         [NewConsumer {| groupId := "test-group"; sessionTimeout := 30000;
                         heartbeatInterval := 3000 |};
          Subscribe ["test-topic"; "banking.users.events"] false; Run].
Proof.
  destruct (start_subscribes_then_runs (snd (setHandler Sample.picky Sample.new_consumer))
              {| groupId := "test-group"; sessionTimeout := 30000;
                 heartbeatInterval := 3000 |} Sample.picky Sample.delivered Sample.delivered)
    as (st' & H1 & H2 & H3 & H4 & _); [reflexivity ..|].
  exists st'. split; [exact H1|]. split; [exact H3|]. split; [now rewrite H4|exact H2].
Defined.

(** X15: when the client rejects the subscription, [start()] logs the
    failure and throws the client's error; the loop is never run and the
    running flag stays as it was. *)
Theorem start_subscribe_failure (st : St BaseConsumer) c h e :
  let k := kafka_client (world st) in
  let subscribe := Subscribe (topics (this st)) false in
  consumer (this st) = Some c ->
  handler (this st) = Some h ->
  answer k (calls k) subscribe = Nack e ->
  exists st',
    start st = (Throw e, st')
    /\ calls (kafka_client (world st')) = (calls k ++ [subscribe])%list
    /\ isRunning (this st') = isRunning (this st)
    /\ last (logger (this st'))
       = Some {| level := LError; text := "Failed to start consumer";
                 meta := [("error", json_of_error e)] |}.
Proof.
  intros k subscribe Hc Hh Hs. unfold start. cbv [bind read]. rewrite Hc.
  cbv [bool_decide decide_rel is_Some_dec negb]. rewrite Hh.
  cbv [try_catch on_client consumer_subscribe consumer_run request bind log update
       ret throw].
  cbn [this world kafka_client sys topics]. fold k subscribe. rewrite Hs.
  eexists. split; [reflexivity|]. cbn. repeat split. apply last_snoc.
Qed.

Lemma start_subscribe_failure_witness :
  exists st',
    start (snd (setHandler Sample.picky (Sample2.consumer_on Sample2.no_subscription)))
      = (Throw (Error "Unknown topic"), st')
    /\ isRunning (this st') = false
    /\ existsb (fun c => match c with Run => true | _ => false end)
         (calls (kafka_client (world st'))) = false.
Proof.
  destruct (start_subscribe_failure
              (snd (setHandler Sample.picky (Sample2.consumer_on Sample2.no_subscription)))
              {| groupId := "test-group"; sessionTimeout := 30000;
                 heartbeatInterval := 3000 |} Sample.picky (Error "Unknown topic"))
    as (st' & H1 & H2 & H3 & _); [reflexivity ..|].
  exists st'. split; [exact H1|]. split; [now rewrite H3|]. now rewrite H2.
Defined.

End SubscriberLifecycle.

Section SubscriberShutdown.

Import Consumer.

(** X16: [stop()] has no guard on the running flag: it always asks the
    client to stop.  When the client stops, the running flag is cleared, the
    connected flag is untouched, and [pause()] and [resume()] become no-ops;
    when the client fails, its error is thrown and the object is left as it
    was. *)
Theorem stop_outcome (st : St BaseConsumer) c :
  let k := kafka_client (world st) in
  consumer (this st) = Some c ->
  exists r st',
    stop st = (r, st')
    /\ calls (kafka_client (world st')) = (calls k ++ [Stop])%list
    /\ isConnected (this st') = isConnected (this st)
    /\ match answer k (calls k) Stop with
       | Ack _ =>
           r = Normal tt
           /\ isRunning (this st') = false
           /\ pause st' = (Normal tt, st')
           /\ resume st' = (Normal tt, st')
       | Nack e => r = Throw e /\ this st' = this st
       end.
Proof.
  intros k Hc. unfold stop. cbv [bind read]. rewrite Hc.
  cbv [bool_decide decide_rel is_Some_dec on_client consumer_stop request bind log
       update ret].
  fold k. destruct (answer k (calls k) Stop) as [metadata|e];
    eexists _, _; (split; [reflexivity|]); cbn [this world kafka_client calls
      record_call isConnected isRunning set_isRunning]; repeat split.
  - now apply pause_not_running.
  - now apply resume_not_running.
Qed.

Lemma stop_outcome_witness :
  exists st',
    stop Sample.running_consumer = (Normal tt, st')
    /\ isRunning (this st') = false
    /\ pause st' = (Normal tt, st').
Proof.
  destruct (stop_outcome Sample.running_consumer
              {| groupId := "test-group"; sessionTimeout := 30000;
                 heartbeatInterval := 3000 |} eq_refl)
    as (r & st' & H1 & _ & _ & H4).
  assert (Hans : answer (kafka_client (world Sample.running_consumer))
                   (calls (kafka_client (world Sample.running_consumer))) Stop
                 = Ack Sample.delivered) by reflexivity.
  rewrite Hans in H4. destruct H4 as (-> & H5 & H6 & _).
  exists st'. split; [exact H1|]. split; [exact H5|exact H6].
Defined.

(** X17: [disconnect()] of the subscriber clears the connected flag and
    nothing else: a subscriber that was running stays flagged as running (its
    loop is not stopped through [stop()]).  On a subscriber not flagged as
    connected it is a no-op. *)
Theorem consumer_disconnect_keeps_running (st : St BaseConsumer) :
  let k := kafka_client (world st) in
  (forall c metadata,
     consumer (this st) = Some c ->
     isConnected (this st) = true ->
     answer k (calls k) ConsumerDisconnect = Ack metadata ->
     exists st',
       disconnect st = (Normal tt, st')
       /\ isConnected (this st') = false
       /\ isRunning (this st') = isRunning (this st)
       /\ handler (this st') = handler (this st)
       /\ calls (kafka_client (world st')) = (calls k ++ [ConsumerDisconnect])%list)
  /\ (isConnected (this st) = false -> disconnect st = (Normal tt, st)).
Proof.
  intros k. split.
  - intros c metadata Hc Hconn Hans. unfold disconnect. cbv [bind read].
    rewrite Hc, Hconn.
    cbv [bool_decide decide_rel is_Some_dec andb on_client consumer_disconnect request
         bind log update ret].
    fold k. rewrite Hans. eexists. split; [reflexivity|]. repeat split.
  - intros Hconn. unfold disconnect. cbv [bind read]. now rewrite Hconn, andb_false_r.
Qed.

Lemma consumer_disconnect_keeps_running_witness :
  (exists st',
     disconnect Sample.running_consumer = (Normal tt, st')
     /\ isConnected (this st') = false
     /\ isRunning (this st') = true)
  /\ disconnect Sample.new_consumer = (Normal tt, Sample.new_consumer).
Proof.
  split.
  - destruct (proj1 (consumer_disconnect_keeps_running Sample.running_consumer)
                {| groupId := "test-group"; sessionTimeout := 30000;
                   heartbeatInterval := 3000 |} Sample.delivered)
      as (st' & H1 & H2 & H3 & _); [reflexivity ..|].
    exists st'. split; [exact H1|]. split; [exact H2|]. now rewrite H3.
  - apply (proj2 (consumer_disconnect_keeps_running Sample.new_consumer)). reflexivity.
Defined.

End SubscriberShutdown.

Section SubscriberHandler.

Import Consumer.

(** X18: the [eachMessage] callback writes exactly one log record per
    message, with the topic, partition and offset of the message: a debug
    record with the time spent between its two readings of the clock when the
    handler resolves, an error record with the handler's error when it
    rejects.  The flags, the handler and the topics of the subscriber are not
    touched. *)
Theorem eachMessage_logs_once (st : St BaseConsumer) payload h :
  handler (this st) = Some h ->
  let y := tick (sys (world st)) in
  let where_ := [("topic", JStr (in_topic payload));
                 ("partition", JNum (in_partition payload));
                 ("offset", JStr (in_offset (message payload)))] in
  (forall y', h payload y = (Normal tt, y') ->
     exists st',
       eachMessage payload st = (Normal tt, st')
       /\ logger (this st') =
            (logger (this st)
               ++ [{| level := LDebug; text := "Message processed";
                      meta := where_ ++ [("processingMs", JNum (now (tick y') - now y))] |}])%list
       /\ isRunning (this st') = isRunning (this st)
       /\ isConnected (this st') = isConnected (this st)
       /\ handler (this st') = handler (this st)
       /\ topics (this st') = topics (this st))
  /\ (forall e y', h payload y = (Throw e, y') ->
        exists st',
          eachMessage payload st = (Throw e, st')
          /\ logger (this st') =
               (logger (this st)
                  ++ [{| level := LError; text := "Failed to process message";
                         meta := where_ ++ [("error", json_of_error e)] |}])%list
          /\ isRunning (this st') = isRunning (this st)
          /\ isConnected (this st') = isConnected (this st)
          /\ handler (this st') = handler (this st)
          /\ topics (this st') = topics (this st)).
Proof.
  intros Hh y where_. split.
  - intros y' Hrun. unfold eachMessage. cbv [bind on_sys Date_now try_catch read].
    cbn [this world sys]. rewrite Hh. cbn [this world sys kafka_client].
    fold y. rewrite Hrun. eexists. split; [reflexivity|]. repeat split. exact Hh.
  - intros e y' Hrun. unfold eachMessage. cbv [bind on_sys Date_now try_catch read].
    cbn [this world sys]. rewrite Hh. cbn [this world sys kafka_client].
    fold y. rewrite Hrun. eexists. split; [reflexivity|]. repeat split. exact Hh.
Qed.

Lemma eachMessage_logs_once_witness :
  exists st',
    eachMessage (Sample.message_at "13") Sample.running_consumer
      = (Throw (Error "Processing failed"), st')
    /\ List.length (logger (this st'))
       = S (List.length (logger (this Sample.running_consumer))).
Proof.
  destruct (proj2 (eachMessage_logs_once Sample.running_consumer (Sample.message_at "13")
                     Sample.picky eq_refl)
              (Error "Processing failed")
              (tick (sys (world Sample.running_consumer))) eq_refl)
    as (st' & H1 & H2 & _).
  exists st'. split; [exact H1|]. rewrite H2, length_app. cbn. lia.
Defined.

(** X19: [setHandler] replaces the handler, and the message loop uses the
    handler that is set when a message arrives: after [setHandler(h)], also
    on a subscriber already running with another handler, the outcome of a
    delivery is the outcome of [h].  [setHandler] changes no other field of
    the subscriber and nothing of the world. *)
Theorem setHandler_takes_effect (st : St BaseConsumer) h payload :
  let st1 := snd (setHandler h st) in
  let y := tick (sys (world st)) in
  fst (setHandler h st) = Normal tt
  /\ world st1 = world st
  /\ isRunning (this st1) = isRunning (this st)
  /\ handler (this st1) = Some h
  /\ kafka (this st1) = kafka (this st)
  /\ consumer (this st1) = consumer (this st)
  /\ isConnected (this st1) = isConnected (this st)
  /\ topics (this st1) = topics (this st)
  /\ logger (this st1) = logger (this st)
  /\ fst (eachMessage payload st1)
     = match fst (h payload y) with
       | Normal _ => Normal tt
       | Throw e => Throw e
       end.
Proof.
  intros st1 y. repeat split.
  unfold eachMessage. cbv [bind on_sys Date_now try_catch read].
  cbn [st1 setHandler update snd this world sys set_handler handler kafka_client].
  fold y. destruct (h payload y) as [[[]|e] y']; reflexivity.
Qed.

End SubscriberHandler.

(** * Validators *)

Section Sanitize.

Import Validators.

Lemma drop_spaces_starts_clean s : starts_clean (drop_spaces s).
Proof.
  induction s as [|c rest IH]; [exact I|]. cbn [drop_spaces].
  destruct (is_space c) eqn:E; [exact IH|exact E].
Qed.

Lemma drop_spaces_fixed s : starts_clean s -> drop_spaces s = s.
Proof. destruct s as [|c rest]; [reflexivity|]. cbn. now intros ->. Qed.

Lemma drop_spaces_suffix s : exists p, s = (p ++ drop_spaces s)%list.
Proof.
  induction s as [|c rest [p IH]]; [now exists []|]. cbn [drop_spaces].
  destruct (is_space c).
  - exists (c :: p). cbn. now rewrite <- IH.
  - now exists [].
Qed.

Lemma trim_fixed s : starts_clean s -> starts_clean (rev s) -> trim s = s.
Proof.
  intros H1 H2. unfold trim. rewrite (drop_spaces_fixed s H1).
  rewrite (drop_spaces_fixed (rev s) H2). apply rev_involutive.
Qed.

Lemma trim_ends_clean s : starts_clean (rev (trim s)).
Proof. unfold trim. rewrite rev_involutive. apply drop_spaces_starts_clean. Qed.

Lemma trim_starts_clean s : starts_clean (trim s).
Proof.
  unfold trim. pose proof (drop_spaces_starts_clean s) as Ha.
  destruct (drop_spaces_suffix (rev (drop_spaces s))) as [p Hp].
  apply (f_equal (@rev N)) in Hp. rewrite rev_involutive, rev_app_distr in Hp.
  destruct (rev (drop_spaces (rev (drop_spaces s)))) as [|c t]; [exact I|].
  rewrite Hp in Ha. exact Ha.
Qed.

Lemma trim_incl s c : In c (trim s) -> In c s.
Proof.
  unfold trim. intros H. apply in_rev in H.
  destruct (drop_spaces_suffix (rev (drop_spaces s))) as [p Hp].
  assert (H1 : In c (rev (drop_spaces s))) by (rewrite Hp; apply in_or_app; now right).
  apply in_rev in H1. destruct (drop_spaces_suffix s) as [q Hq].
  rewrite Hq. apply in_or_app. now right.
Qed.

Lemma filter_fixed {A} (f : A -> bool) (l : list A) :
  (forall x, In x l -> f x = true) -> List.filter f l = l.
Proof.
  induction l as [|a l IH]; intros H; [reflexivity|]. cbn [List.filter].
  rewrite (H a) by now left. f_equal. apply IH. intros x Hx. apply H. now right.
Qed.

Lemma sanitize_no_control input c :
  In c (sanitizeInput input) -> is_control c = false.
Proof.
  unfold sanitizeInput. intros H. apply trim_incl, filter_In in H.
  destruct H as [_ H]. now apply negb_true_iff in H.
Qed.

(** X20: the result of [sanitizeInput] holds no NUL and no control character
    of the class it removes (tab, line feed and carriage return inside the
    text are kept), and neither starts nor ends with white space. *)
Theorem sanitizeInput_clean (input : list N) :
  Forall (fun c => is_control c = false /\ c <> 0%N) (sanitizeInput input)
  /\ match sanitizeInput input with [] => True | c :: _ => is_space c = false end
  /\ match rev (sanitizeInput input) with [] => True | c :: _ => is_space c = false end.
Proof.
  split; [|split].
  - apply List.Forall_forall. intros c Hc. apply sanitize_no_control in Hc.
    split; [exact Hc|]. intros ->. discriminate Hc.
  - apply trim_starts_clean.
  - apply trim_ends_clean.
Qed.

(** X21: [sanitizeInput] returns unchanged a text that holds no control
    character and has no white space at either end; hence sanitising twice
    is sanitising once. *)
Theorem sanitizeInput_fixed_point (input : list N) :
  (Forall (fun c => is_control c = false) input ->
   match input with [] => True | c :: _ => is_space c = false end ->
   match rev input with [] => True | c :: _ => is_space c = false end ->
   sanitizeInput input = input)
  /\ sanitizeInput (sanitizeInput input) = sanitizeInput input.
Proof.
  assert (Hfix : forall s,
             Forall (fun c => is_control c = false) s ->
             starts_clean s -> starts_clean (rev s) -> sanitizeInput s = s).
  { intros s Hall H1 H2. unfold sanitizeInput. rewrite List.Forall_forall in Hall.
    rewrite (filter_fixed (fun c => negb (c =? 0)%N) s).
    - rewrite filter_fixed; [now apply trim_fixed|].
      intros x Hx. now rewrite (Hall x Hx).
    - intros x Hx. specialize (Hall x Hx). destruct (N.eqb_spec x 0); [|reflexivity].
      subst x. discriminate Hall. }
  split; [apply Hfix|].
  apply Hfix.
  - apply List.Forall_forall. intros c Hc. now apply sanitize_no_control in Hc.
  - apply trim_starts_clean.
  - apply trim_ends_clean.
Qed.

Lemma sanitizeInput_fixed_point_witness :
  sanitizeInput (units "test") = units "test"
  /\ sanitizeInput (sanitizeInput (units "  a b  ")) = sanitizeInput (units "  a b  ").
Proof.
  split.
  - apply (proj1 (sanitizeInput_fixed_point (units "test"))).
    + repeat constructor.
    + reflexivity.
    + reflexivity.
  - apply (proj2 (sanitizeInput_fixed_point (units "  a b  "))).
Defined.

End Sanitize.

Section RoutingNumber.

Import Validators.

Lemma Number_of_digit c :
  is_digit c = true ->
  Number_of_char c = Some (Z.of_N c - 48) /\ 0 <= Z.of_N c - 48 <= 9.
Proof.
  intros H. unfold Number_of_char. rewrite H. split; [reflexivity|].
  unfold is_digit in H. apply andb_true_iff in H. destruct H as [H1 H2].
  apply N.leb_le in H1, H2. lia.
Qed.

(** The weighted sum behind the checksum of nine digits. *)
Lemma routing_checksum_digits c0 c1 c2 c3 c4 c5 c6 c7 c8 :
  forallb is_digit [c0; c1; c2; c3; c4; c5; c6; c7; c8] = true ->
  routing_checksum [c0; c1; c2; c3; c4; c5; c6; c7; c8] =
    Some ((3 * ((Z.of_N c0 - 48) + (Z.of_N c3 - 48) + (Z.of_N c6 - 48))
           + 7 * ((Z.of_N c1 - 48) + (Z.of_N c4 - 48) + (Z.of_N c7 - 48))
           + ((Z.of_N c2 - 48) + (Z.of_N c5 - 48) + (Z.of_N c8 - 48))) mod 10)
  /\ Forall (fun c => 0 <= Z.of_N c - 48 <= 9) [c0; c1; c2; c3; c4; c5; c6; c7; c8].
Proof.
  intros H. cbn [forallb] in H.
  repeat match type of H with
         | _ && _ = true => apply andb_true_iff in H; destruct H as [?H H]
         end.
  repeat match goal with
         | Hd : is_digit ?c = true |- _ =>
             destruct (Number_of_digit c Hd) as [? ?]; clear Hd
         end.
  split; [|repeat (constructor; [assumption|]); constructor].
  unfold routing_checksum, digit_at. cbn [List.map nth].
  repeat match goal with Hn : Number_of_char _ = Some _ |- _ => rewrite Hn; clear Hn end.
  cbn [nan_add nan_scale nan_rem]. f_equal. apply Z.rem_mod_nonneg; lia.
Qed.

Lemma routing_ok_inv value :
  routing_number_ok value = true ->
  exists c0 c1 c2 c3 c4 c5 c6 c7 c8,
    value = [c0; c1; c2; c3; c4; c5; c6; c7; c8]
    /\ forallb is_digit value = true
    /\ routing_checksum value = Some 0.
Proof.
  unfold routing_number_ok, nine_digits, routing_custom. intros H.
  apply andb_true_iff in H. destruct H as [H Hc].
  apply andb_true_iff in H. destruct H as [Hl Hd]. apply Nat.eqb_eq in Hl.
  do 10 (destruct value as [|? value]; try discriminate Hl).
  eexists _, _, _, _, _, _, _, _, _. split; [reflexivity|]. split; [exact Hd|].
  destruct (routing_checksum _) as [[| |]|]; try discriminate Hc. reflexivity.
Qed.

Lemma routing_custom_digits c0 c1 c2 c3 c4 c5 c6 c7 c8 :
  is_digit c0 = true -> is_digit c1 = true -> is_digit c2 = true ->
  is_digit c3 = true -> is_digit c4 = true -> is_digit c5 = true ->
  is_digit c6 = true -> is_digit c7 = true -> is_digit c8 = true ->
  routing_custom [c0; c1; c2; c3; c4; c5; c6; c7; c8] =
    if (3 * ((Z.of_N c0 - 48) + (Z.of_N c3 - 48) + (Z.of_N c6 - 48))
        + 7 * ((Z.of_N c1 - 48) + (Z.of_N c4 - 48) + (Z.of_N c7 - 48))
        + ((Z.of_N c2 - 48) + (Z.of_N c5 - 48) + (Z.of_N c8 - 48))) mod 10 =? 0
    then Value [c0; c1; c2; c3; c4; c5; c6; c7; c8]
    else HelperError "string.checksum".
Proof.
  intros H0 H1 H2 H3 H4 H5 H6 H7 H8.
  destruct (routing_checksum_digits c0 c1 c2 c3 c4 c5 c6 c7 c8) as [Hs _].
  { cbn [forallb]. now rewrite H0, H1, H2, H3, H4, H5, H6, H7, H8. }
  unfold routing_custom. rewrite Hs.
  match goal with |- context [?x mod 10] => destruct (x mod 10) end; reflexivity.
Qed.

Lemma digit_range c : is_digit c = true -> 48 <= Z.of_N c <= 57.
Proof.
  unfold is_digit. intros H. apply andb_true_iff in H. destruct H as [H1 H2].
  apply N.leb_le in H1, H2. lia.
Qed.


(** The weights 3, 7 and 1 are invertible modulo 10. *)
Lemma weight_cancel w x y :
  w = 1 \/ w = 3 \/ w = 7 ->
  0 <= x <= 9 -> 0 <= y <= 9 ->
  (w * x - w * y) mod 10 = 0 -> x = y.
Proof.
  intros Hw Hx Hy.
  assert (Ex : In x (upto 10)) by (apply in_upto; lia).
  assert (Ey : In y (upto 10)) by (apply in_upto; lia).
  assert (Hall : forallb (fun w' => forallb (fun x' => forallb (fun y' =>
            implb ((w' * x' - w' * y') mod 10 =? 0) (x' =? y'))
            (upto 10)) (upto 10)) [1; 3; 7] = true) by (vm_compute; reflexivity).
  rewrite forallb_forall in Hall.
  assert (Ew : In w [1; 3; 7]) by (cbn; lia).
  specialize (Hall w Ew). rewrite forallb_forall in Hall.
  specialize (Hall x Ex). rewrite forallb_forall in Hall.
  specialize (Hall y Ey). intros E. rewrite E in Hall. cbn in Hall. lia.
Qed.

(** X22: the checksum of [routingNumberSchema] catches every single wrong
    digit: replacing one digit of an accepted routing number by another digit
    gives a number whose custom rule reports [string.checksum]. *)
Theorem routing_detects_single_digit_error (value : list N) (i : nat) (d : N) :
  routing_number_ok value = true ->
  is_digit d = true ->
  value !! i <> Some d ->
  (i < 9)%nat ->
  routing_custom (<[i := d]> value) = HelperError "string.checksum"
  /\ routing_number_ok (<[i := d]> value) = false.
Proof.
  intros Hok Hd Hne Hi.
  destruct (routing_ok_inv value Hok)
    as (c0 & c1 & c2 & c3 & c4 & c5 & c6 & c7 & c8 & -> & Hall & _).
  cbn [forallb] in Hall.
  repeat match type of Hall with
         | _ && _ = true => apply andb_true_iff in Hall; destruct Hall as [?Hc Hall]
         end.
  clear Hall.
  unfold routing_number_ok, nine_digits in Hok.
  rewrite routing_custom_digits in Hok by assumption.
  apply andb_true_iff in Hok. destruct Hok as [_ Hok].
  match type of Hok with
  | context [?x mod 10 =? 0] => destruct (Z.eqb_spec (x mod 10) 0) as [Hsum|];
                                 [clear Hok|discriminate Hok]
  end.
  repeat match goal with
         | H : is_digit ?c = true |- _ => pose proof (digit_range c H); revert H
         end.
  intros.
  assert (Hcustom : routing_custom (<[i := d]> [c0; c1; c2; c3; c4; c5; c6; c7; c8])
                    = HelperError "string.checksum").
  { do 9 (destruct i as [|i];
          [cbn [list_insert insert]; cbn in Hne;
           rewrite routing_custom_digits by assumption;
           match goal with
           | |- context [?x mod 10 =? 0] =>
               destruct (Z.eqb_spec (x mod 10) 0) as [Hsum'|]; [|reflexivity]
           end;
           exfalso; apply Hne; f_equal; apply N2Z.inj;
           match type of Hne with
           | Some ?c <> Some _ =>
               assert (Z.of_N c - 48 = Z.of_N d - 48); [|lia];
               first [apply (weight_cancel 3); [tauto|lia|lia|modlia]
                     |apply (weight_cancel 7); [tauto|lia|lia|modlia]
                     |apply (weight_cancel 1); [tauto|lia|lia|modlia]]
           end|]).
    lia. }
  split; [exact Hcustom|]. unfold routing_number_ok. rewrite Hcustom.
  apply andb_false_r.
Qed.

Lemma routing_detects_single_digit_error_witness :
  routing_number_ok (units "011000138") = true
  /\ routing_custom (units "011000139") = HelperError "string.checksum".
Proof.
  split; [reflexivity|].
  apply (routing_detects_single_digit_error (units "011000138") 8 57%N);
    [reflexivity|reflexivity|discriminate|lia].
Defined.

(** X23: for every choice of the first eight digits exactly one ninth digit
    makes a routing number that the custom rule accepts. *)
Theorem routing_check_digit_unique (prefix : list N) :
  length prefix = 8%nat ->
  forallb is_digit prefix = true ->
  exists d,
    is_digit d = true
    /\ routing_number_ok (prefix ++ [d]) = true
    /\ forall d', is_digit d' = true ->
                  routing_number_ok (prefix ++ [d']) = true -> d' = d.
Proof.
  intros Hl Hall.
  do 9 (destruct prefix as [|? prefix]; try discriminate Hl). clear Hl.
  cbn [forallb] in Hall.
  repeat match type of Hall with
         | _ && _ = true => apply andb_true_iff in Hall; destruct Hall as [?Hc Hall]
         end.
  clear Hall.
  repeat match goal with
         | H : is_digit ?c = true |- _ => pose proof (digit_range c H); revert H
         end.
  intros.
  set (s := 3 * ((Z.of_N n - 48) + (Z.of_N n2 - 48) + (Z.of_N n5 - 48))
            + 7 * ((Z.of_N n0 - 48) + (Z.of_N n3 - 48) + (Z.of_N n6 - 48))
            + ((Z.of_N n1 - 48) + (Z.of_N n4 - 48))).
  exists (Z.to_N (48 + (10 - s mod 10) mod 10)).
  assert (Hd : is_digit (Z.to_N (48 + (10 - s mod 10) mod 10)) = true).
  { unfold is_digit. apply andb_true_iff. split; apply N.leb_le; modlia. }
  split; [exact Hd|]. cbn [app]. unfold routing_number_ok, nine_digits.
  cbn [length Nat.eqb forallb]. split.
  - rewrite routing_custom_digits by assumption.
    rewrite Hc, Hc0, Hc1, Hc2, Hc3, Hc4, Hc5, Hc6, Hd. cbn [andb].
    match goal with
    | |- context [?x mod 10 =? 0] =>
        destruct (Z.eqb_spec (x mod 10) 0) as [|Hx]; [reflexivity|]
    end.
    exfalso. apply Hx. subst s. modlia.
  - intros d' Hd' Hok. pose proof (digit_range d' Hd').
    rewrite routing_custom_digits in Hok by assumption.
    apply andb_true_iff in Hok. destruct Hok as [_ Hok].
    match type of Hok with
    | context [?x mod 10 =? 0] =>
        destruct (Z.eqb_spec (x mod 10) 0) as [Hsum|]; [clear Hok|discriminate Hok]
    end.
    apply N2Z.inj.
    assert (Z.of_N d' - 48 = Z.of_N (Z.to_N (48 + (10 - s mod 10) mod 10)) - 48); [|lia].
    apply (weight_cancel 1); [tauto|lia|modlia|]. subst s. modlia.
Qed.

Lemma routing_check_digit_unique_witness :
  exists d,
    is_digit d = true
    /\ routing_number_ok (units "01100013" ++ [d]) = true.
Proof.
  destruct (routing_check_digit_unique (units "01100013")) as (d & H1 & H2 & _);
    [reflexivity ..|].
  exists d. split; [exact H1|exact H2].
Defined.

End RoutingNumber.

(** * Histories *)

Section PublisherHistory.

Import Producer Protocol.

Lemma publish_headers_common key text eventType version service options :
  has_headers common_headers
    {| key := key; value := text;
       headers := publish_headers eventType version service options |}.
Proof.
  unfold has_headers, common_headers. cbn [headers].
  repeat (constructor;
          [apply publish_headers_present; unfold envelope_headers;
           repeat first [apply list_elem_of_here | apply list_elem_of_further]|]).
  constructor.
Qed.

Lemma batch_headers_common eventType version service :
  Forall (fun name => is_Some (batch_headers eventType version service !! name))
    common_headers.
Proof.
  unfold common_headers, batch_headers.
  repeat (constructor; [now simplify_map_eq|]). constructor.
Qed.

(** What one call of the public interface adds to the calls of the client,
    and that it keeps the identity of the producer. *)
Lemma call_trace op (st : St BaseProducer) :
  exists extra,
    calls (kafka_client (world (snd (call op st))))
      = (calls (kafka_client (world st)) ++ extra)%list
    /\ Forall producer_call extra
    /\ serviceName (this (snd (call op st))) = serviceName (this st)
    /\ eventVersion (this (snd (call op st))) = eventVersion (this st).
Proof.
  destruct op as [| |topic eventType payload key options|topic messages options].
  - (* connect *)
    unfold call, connect. cbv [bind read].
    destruct (isConnected (this st)).
    { exists []. rewrite app_nil_r. repeat split. constructor. }
    cbv [try_catch on_client local producer_connect request bind log update ret throw].
    cbn [this world kafka_client calls answer record_call].
    match goal with
    | |- context [match answer ?a ?b ?c with _ => _ end] => destruct (answer a b c)
    end; cbn; rewrite <- app_assoc; eexists; (split; [reflexivity|]);
      repeat split; repeat constructor.
  - (* disconnect *)
    unfold call, disconnect. cbv [bind read].
    destruct (bool_decide (is_Some (producer (this st))) && isConnected (this st)).
    2:{ exists []. rewrite app_nil_r. repeat split. constructor. }
    cbv [on_client producer_disconnect request bind log update ret].
    match goal with
    | |- context [match answer ?a ?b ?c with _ => _ end] => destruct (answer a b c)
    end; cbn; eexists; (split; [reflexivity|]); repeat split; repeat constructor.
  - (* publish *)
    assert (E : snd (call (OpPublish topic eventType payload key options) st)
                = snd (publish topic eventType payload key options st)).
    { unfold call, bind, ret.
      destruct (publish topic eventType payload key options st) as [[r|e] s]; reflexivity. }
    rewrite E. clear E. unfold publish. cbv [bind read].
    destruct (negb (bool_decide (is_Some (producer (this st))))
              || negb (isConnected (this st))).
    { exists []. rewrite app_nil_r. repeat split. constructor. }
    cbv [on_sys]. rewrite createBaseEvent_eq.
    cbv [try_catch completes with_correlationId].
    cbn [eventId Events.eventType timestamp version source causationId].
    rewrite stringify_message.
    destruct (JSON_stringify payload) as [text|e].
    2:{ cbv [log update throw]. cbn [snd this world kafka_client serviceName eventVersion].
        exists []. rewrite app_nil_r. repeat split. constructor. }
    cbv [on_client producer_send request log update ret throw].
    cbn [world kafka_client this sys eventVersion serviceName].
    match goal with
    | |- context [match answer ?a ?b ?c with _ => _ end] => destruct (answer a b c)
    end; cbn [snd this world kafka_client calls record_call serviceName eventVersion];
      eexists; (split; [reflexivity|]); (split; [|split; reflexivity]);
      (constructor; [|constructor]); cbn [producer_call compression messages];
      (split; [reflexivity|]); (constructor; [|constructor]);
      apply publish_headers_common.
  - (* publishBatch *)
    assert (E : snd (call (OpPublishBatch topic messages options) st)
                = snd (publishBatch topic messages options st)).
    { unfold call, bind, ret.
      destruct (publishBatch topic messages options st) as [[r|e] s]; reflexivity. }
    rewrite E. clear E. unfold publishBatch. cbv [bind read].
    destruct (negb (bool_decide (is_Some (producer (this st))))
              || negb (isConnected (this st))).
    { exists []. rewrite app_nil_r. repeat split. constructor. }
    cbv [try_catch].
    destruct (mapM_kafkaMessage options messages st)
      as (c0 & st1 & Hmap & Hthis & Hk & _ & Hcase).
    rewrite Hmap. destruct c0 as [ms|e].
    2:{ cbv [log update throw]. cbn [snd this world kafka_client serviceName eventVersion].
        rewrite Hk, Hthis. exists []. rewrite app_nil_r. repeat split. constructor. }
    cbv [on_client producer_send request log update ret throw].
    assert (Hms : Forall (has_headers common_headers) ms).
    { destruct (first_rejected messages) as [[n e]|];
        [destruct Hcase as [Hcase _]; discriminate Hcase|].
      destruct Hcase as (ms' & Hms' & _ & Hall & _). injection Hms' as <-.
      clear Hmap. induction Hall as [|entry m ? ? (_ & Hh & _) _ IH]; constructor;
        [|exact IH].
      unfold has_headers. rewrite Hh. apply batch_headers_common. }
    match goal with
    | |- context [match answer ?a ?b ?c with _ => _ end] => destruct (answer a b c)
    end; cbn [snd this world kafka_client calls record_call serviceName eventVersion];
      rewrite Hk, Hthis; eexists; (split; [reflexivity|]); (split; [|split; reflexivity]);
      (constructor; [|constructor]); cbn [producer_call compression Kafka.messages];
      (split; [reflexivity|exact Hms]).
Qed.

(** X12: whatever calls of the public interface follow the constructor, the
    producer only ever asks the client for idempotent producers, connections,
    disconnections and GZIP-compressed records whose messages all carry the
    headers [event-type], [event-version] and [source-service]; its service
    name stays the configured one and its event version stays 1.0; and
    whenever it is flagged as connected it holds a producer object. *)
Theorem producer_history config logger (w : World) (ops : list Op) :
  let st := after ops {| this := new_BaseProducer config logger; world := w |} in
  (exists extra,
     calls (kafka_client (world st)) = (calls (kafka_client w) ++ extra)%list
     /\ Forall producer_call extra)
  /\ serviceName (this st) = cfg_serviceName config
  /\ eventVersion (this st) = "1.0"
  /\ (isConnected (this st) = true -> is_Some (producer (this st))).
Proof.
  cbv zeta. split; [|split; [|split]]; [| | |apply connected_has_producer].
  - unfold after.
    assert (G : forall ops (st : St BaseProducer),
               exists extra,
                 calls (kafka_client (world (fold_left (fun s op => snd (call op s)) ops st)))
                   = (calls (kafka_client (world st)) ++ extra)%list
                 /\ Forall producer_call extra).
    { clear. induction ops as [|op rest IH]; intros st.
      - exists []. rewrite app_nil_r. split; [reflexivity|constructor].
      - cbn [fold_left]. destruct (call_trace op st) as (e1 & H1 & H2 & _).
        destruct (IH (snd (call op st))) as (e2 & H3 & H4).
        exists (e1 ++ e2)%list. rewrite H3, H1, <- app_assoc. split; [reflexivity|].
        apply Forall_app. split; assumption. }
    apply G.
  - unfold after.
    assert (G : forall ops (st : St BaseProducer),
               serviceName (this (fold_left (fun s op => snd (call op s)) ops st))
               = serviceName (this st)).
    { clear. induction ops as [|op rest IH]; intros st; [reflexivity|].
      cbn [fold_left]. rewrite IH. now destruct (call_trace op st) as (_ & _ & _ & -> & _). }
    rewrite G. reflexivity.
  - unfold after.
    assert (G : forall ops (st : St BaseProducer),
               eventVersion (this (fold_left (fun s op => snd (call op s)) ops st))
               = eventVersion (this st)).
    { clear. induction ops as [|op rest IH]; intros st; [reflexivity|].
      cbn [fold_left]. rewrite IH. now destruct (call_trace op st) as (_ & _ & _ & _ & ->). }
    rewrite G. reflexivity.
Qed.

End PublisherHistory.

Section SubscriberHistory.

Import Consumer Protocol.

(** What one call of the public interface adds to the calls of the client. *)
Lemma consumer_call_trace op (st : St BaseConsumer) :
  exists extra,
    calls (kafka_client (world (snd (call op st))))
      = (calls (kafka_client (world st)) ++ extra)%list
    /\ Forall (consumer_call (topics (this st))) extra
    /\ topics (this (snd (call op st))) = topics (this st)
    /\ committed (kafka_client (world (snd (call op st))))
       = committed (kafka_client (world st)).
Proof.
  destruct st as [[kc c conn run h ts lg] [y k]].
  destruct op;
    cbv [call setHandler connect start stop disconnect pause resume bind read try_catch
         on_client consumer_connect consumer_subscribe consumer_run consumer_stop
         consumer_disconnect consumer_pause consumer_resume request local modify
         log update ret throw set_isConnected set_isRunning set_handler];
    destruct c as [c|], h as [h|], conn, run; cbn;
    repeat match goal with
           | |- context [match answer ?a ?b ?c with _ => _ end] =>
               destruct (answer a b c); cbn
           end;
    rewrite <- ?app_assoc;
    first [ exists []; rewrite app_nil_r; (split; [reflexivity|]);
            (split; [constructor|split; reflexivity])
          | eexists; (split; [reflexivity|]);
            (split; [|split; reflexivity]);
            repeat (constructor; cbn [consumer_call]; auto using topics_of_partitions) ].
Qed.

(** X24: whatever calls of the public interface follow the constructor, the
    subscriber only ever asks the client to connect, disconnect, subscribe to
    its configured topics (never from the beginning), run, stop, and pause or
    resume exactly its configured topics.  It never sends and never commits a
    position itself; its topics stay the configured ones and it never drops
    its consumer object. *)
Theorem consumer_history config logger (w : World) (ops : list Op) :
  let st := after ops (new_BaseConsumer config logger w) in
  (exists extra,
     calls (kafka_client (world st))
       = (calls (kafka_client w)
            ++ NewConsumer {| groupId := cfg_groupId config; sessionTimeout := 30000;
                              heartbeatInterval := 3000 |} :: extra)%list
     /\ Forall (consumer_call (cfg_topics config)) extra)
  /\ committed (kafka_client (world st)) = committed (kafka_client w)
  /\ topics (this st) = cfg_topics config
  /\ is_Some (consumer (this st)).
Proof.
  cbv zeta.
  assert (G : forall ops (st : St BaseConsumer),
             exists extra,
               calls (kafka_client (world (after ops st)))
                 = (calls (kafka_client (world st)) ++ extra)%list
               /\ Forall (consumer_call (topics (this st))) extra
               /\ topics (this (after ops st)) = topics (this st)
               /\ committed (kafka_client (world (after ops st)))
                  = committed (kafka_client (world st))).
  { clear. induction ops as [|op rest IH]; intros st.
    - exists []. rewrite app_nil_r. repeat split. constructor.
    - unfold after in *. cbn [fold_left].
      destruct (consumer_call_trace op st) as (e1 & H1 & H2 & H3 & H4).
      destruct (IH (snd (call op st))) as (e2 & H5 & H6 & H7 & H8).
      exists (e1 ++ e2)%list. rewrite H5, H1, <- app_assoc, H7, H3, H8, H4.
      repeat split. apply Forall_app. split; [exact H2|]. now rewrite <- H3. }
  destruct (G ops (new_BaseConsumer config logger w)) as (extra & H1 & H2 & H3 & H4).
  split; [|split; [|split]].
  - exists extra. rewrite H1. cbn [new_BaseConsumer world kafka_client record_call calls].
    rewrite <- app_assoc. split; [reflexivity|exact H2].
  - rewrite H4. reflexivity.
  - rewrite H3. reflexivity.
  - apply consumer_initialized.
Qed.

End SubscriberHistory.

Section Tables.

(** [isValidCurrency] of the models accepts exactly the currency codes of
    the list [SUPPORTED_CURRENCIES] of the validators. *)
Theorem isValidCurrency_supported (code : string) :
  Models.isValidCurrency code = true <-> code ∈ Validators.SUPPORTED_CURRENCIES.
Proof. unfold Models.isValidCurrency. apply bool_decide_eq_true. Qed.

End Tables.
